(** * pygeoif.geometry: a shallow embedding and its verified properties

    The module [pygeoif/geometry.py] builds points, lines, rings, polygons
    and their collections from raw coordinate sequences, from objects that
    expose [__geo_interface__], and from WKT text.  The Python values the
    constructors inspect are embedded as the inductive type [pyval], the
    exceptions they raise as the error monad [result], and every class as a
    module holding its record of instance attributes and its methods. *)

From Stdlib Require Import ZArith List String Ascii Bool Lia.
From Stdlib Require Import Floats.SpecFloat.
Import ListNotations.
Local Open Scope Z_scope.
Local Open Scope string_scope.
Local Open Scope list_scope.

(** ** Exceptions *)

Inductive exn : Type :=
| TypeError
| ValueError
| IndexError
| AttributeError
| NotImplementedError
| OverflowError
| AssertionError
| UnboundLocalError.

Inductive result (A : Type) : Type :=
| Ok (a : A)
| Raise (e : exn).

Arguments Ok {A} a.
Arguments Raise {A} e.

Definition bind {A B : Type} (c : result A) (k : A -> result B) : result B :=
  match c with
  | Ok a => k a
  | Raise e => Raise e
  end.

Notation "x <- c ;; k" := (bind c (fun x => k))
  (at level 61, c at next level, right associativity).

Fixpoint mapM {A B : Type} (f : A -> result B) (l : list A) : result (list B) :=
  match l with
  | [] => Ok []
  | a :: l' => b <- f a ;; bs <- mapM f l' ;; Ok (b :: bs)
  end.

(** ** Python values

    The universe of values the constructors receive: [None], integers,
    floats (binary64, canonical [spec_float]), byte strings, lists, tuples,
    an object whose [__geo_interface__] is the mapping
    [{'type': ty, 'coordinates': c}], an object whose [__geo_interface__]
    evaluates to [None] (what [_Feature.__geo_interface__] yields for an
    empty geometry), and any other object, told apart by its identity. *)

Scheme All for list.

Inductive pyval : Type :=
| PyNone
| PyInt (n : Z)
| PyFloat (f : spec_float)
| PyStr (s : string)
| PyList (items : list pyval)
| PyTuple (items : list pyval)
| PyGeo (ty : string) (coordinates : pyval)
| PyGeoNone
| PyObject (id : positive).

(** *** binary64 *)

Definition prec : Z := 53.
Definition emax : Z := 1024.

Definition is_nan (f : spec_float) : bool :=
  match f with
  | S754_nan => true
  | _ => false
  end.

Definition spec_float_eqb (x y : spec_float) : bool :=
  match x, y with
  | S754_zero a, S754_zero b => Bool.eqb a b
  | S754_infinity a, S754_infinity b => Bool.eqb a b
  | S754_nan, S754_nan => true
  | S754_finite a m e, S754_finite b m' e' =>
      Bool.eqb a b && Pos.eqb m m' && Z.eqb e e'
  | _, _ => false
  end.

(** [float(n)] for an integer: round to nearest even; a magnitude beyond
    the largest double raises [OverflowError]. *)
Definition float_of_int (n : Z) : result spec_float :=
  match binary_normalize prec emax n 0 false with
  | S754_infinity _ => Raise OverflowError
  | f => Ok f
  end.

(** The value [(-1)^s * m * 10^e], correctly rounded: an integer value
    is normalized, a proper fraction is the quotient of two exact integers;
    either way there is one rounding, to nearest even. *)
Definition float_of_decimal (s : bool) (m : N) (e : Z) : spec_float :=
  match m with
  | N0 => S754_zero s
  | Npos p =>
      match e with
      | Zneg k =>
          SFdiv prec emax (S754_finite s p 0)
                (S754_finite false (Pos.pow 10 k) 0)
      | _ =>
          binary_normalize prec emax
            ((if s then Zneg p else Zpos p) * 10 ^ e) 0 false
      end
  end.

(** Exact comparison of an integer with a float, as [int.__eq__] and
    [float.__eq__] do across the two types. *)
Definition int_float_eqb (n : Z) (f : spec_float) : bool :=
  match f with
  | S754_zero _ => Z.eqb n 0
  | S754_finite s m e =>
      let v := if s then Zneg m else Zpos m in
      if Z.leb 0 e then Z.eqb n (v * 2 ^ e) else Z.eqb (n * 2 ^ (- e)) v
  | _ => false
  end.

(** *** Strings *)

Definition is_space (c : ascii) : bool :=
  let n := nat_of_ascii c in
  (Nat.eqb n 32 || (Nat.leb 9 n && Nat.leb n 13))%bool.

Definition is_digit (c : ascii) : bool :=
  let n := nat_of_ascii c in (Nat.leb 48 n && Nat.leb n 57)%bool.

Definition digit_val (c : ascii) : N := N.of_nat (nat_of_ascii c - 48).

Definition lower (c : ascii) : ascii :=
  let n := nat_of_ascii c in
  if (Nat.leb 65 n && Nat.leb n 90)%bool then ascii_of_nat (n + 32) else c.

Fixpoint lstrip (s : list ascii) : list ascii :=
  match s with
  | c :: s' => if is_space c then lstrip s' else s
  | [] => []
  end.

(** [str.strip()] on the characters of a string. *)
Definition strip_chars (s : list ascii) : list ascii :=
  rev (lstrip (rev (lstrip s))).

Definition strip (s : string) : string :=
  string_of_list_ascii (strip_chars (list_ascii_of_string s)).

(** The longest run of digits at the head of [s], and what follows. *)
Fixpoint span_digits (s : list ascii) : list ascii * list ascii :=
  match s with
  | c :: s' =>
      if is_digit c
      then let '(ds, rest) := span_digits s' in (c :: ds, rest)
      else ([], s)
  | [] => ([], [])
  end.

Definition digits_value (ds : list ascii) : N :=
  fold_left (fun acc c => (10 * acc + digit_val c)%N) ds 0%N.

Definition take_sign (s : list ascii) : bool * list ascii :=
  match s with
  | "-"%char :: s' => (true, s')
  | "+"%char :: s' => (false, s')
  | _ => (false, s)
  end.

(** The optional exponent part [e[+-]ddd] of a decimal literal; nothing
    may follow it. *)
Definition parse_exponent (s : list ascii) : option Z :=
  match s with
  | [] => Some 0
  | c :: s' =>
      if Ascii.eqb (lower c) "e"%char then
        let '(neg, s2) := take_sign s' in
        match span_digits s2 with
        | ((_ :: _) as ds, []) =>
            let v := Z.of_N (digits_value ds) in
            Some (if neg then - v else v)
        | _ => None
        end
      else None
  end.

(** [float(s)] for a string: surrounding whitespace is dropped; the text
    is a signed decimal literal with optional fraction and exponent, or
    one of [inf], [infinity], [nan] in any letter case. *)
Definition float_of_string (s : string) : option spec_float :=
  let '(neg, body) := take_sign (strip_chars (list_ascii_of_string s)) in
  let word := string_of_list_ascii (map lower body) in
  if (String.eqb word "inf" || String.eqb word "infinity")%bool
  then Some (S754_infinity neg)
  else if String.eqb word "nan" then Some S754_nan
  else
    let '(int_ds, r1) := span_digits body in
    let '(frac_ds, r2) :=
      match r1 with
      | "."%char :: r => span_digits r
      | _ => ([], r1)
      end in
    match int_ds ++ frac_ds with
    | [] => None
    | ds =>
        match parse_exponent r2 with
        | Some e =>
            Some (float_of_decimal neg (digits_value ds)
                    (e - Z.of_nat (List.length frac_ds)))
        | None => None
        end
    end.

(** [s.find(c)] for a one-character needle: the index of the first
    occurrence, or [-1]. *)
Fixpoint find_char (c : ascii) (s : list ascii) : Z :=
  match s with
  | [] => -1
  | d :: s' =>
      if Ascii.eqb c d then 0
      else let i := find_char c s' in if Z.ltb i 0 then -1 else i + 1
  end.

(** [s[a:b]]: a negative bound counts from the end, and both are clamped
    to the string. *)
Definition slice_chars (s : list ascii) (a b : Z) : list ascii :=
  let n := Z.of_nat (List.length s) in
  let clamp i := Z.min n (Z.max 0 (if Z.ltb i 0 then i + n else i)) in
  let lo := clamp a in
  let hi := clamp b in
  firstn (Z.to_nat (hi - lo)) (skipn (Z.to_nat lo) s).

(** [s.split(sep)] for a one-character separator: empty fields are kept
    and there is always at least one field. *)
Fixpoint split_on (sep : ascii) (s : list ascii) : list (list ascii) :=
  match s with
  | [] => [[]]
  | c :: s' =>
      match split_on sep s' with
      | w :: ws => if Ascii.eqb c sep then [] :: w :: ws else (c :: w) :: ws
      | [] => [[c]]
      end
  end.

(** [s.split()]: the maximal runs of characters that are not whitespace. *)
Fixpoint split_ws_aux (s : list ascii) (cur : list ascii)
  : list (list ascii) :=
  match s with
  | [] => match cur with [] => [] | _ => [rev cur] end
  | c :: s' =>
      if is_space c
      then match cur with
           | [] => split_ws_aux s' []
           | _ => rev cur :: split_ws_aux s' []
           end
      else split_ws_aux s' (c :: cur)
  end.

Definition split_ws (s : list ascii) : list (list ascii) := split_ws_aux s [].

Definition str_of (cs : list ascii) : pyval := PyStr (string_of_list_ascii cs).

(** *** Built-in operations on values *)

Section ListEq.
Variable A : Type.
Variable eqb : A -> A -> bool.

Fixpoint list_eqb (l1 l2 : list A) : bool :=
  match l1, l2 with
  | [], [] => true
  | a :: l1', b :: l2' => eqb a b && list_eqb l1' l2'
  | _, _ => false
  end.
End ListEq.

Arguments list_eqb {A} eqb l1 l2.

(** Identity of objects.  The embedding has values and no addresses: two
    occurrences of one value stand for one object.  This is what the
    code sees when a coordinate is appended to the sequence it comes
    from, and what it sees of all values but two: NaN floats and
    objects, which [==] tells apart by identity, are taken as one when
    they are alike even if they were created apart.  On the [plain]
    values below identity plays no part in [==], and the statements that
    say which of two unequal-looking results the code gives are made of
    those. *)
Fixpoint py_is (a b : pyval) : bool :=
  match a, b with
  | PyNone, PyNone => true
  | PyInt x, PyInt y => Z.eqb x y
  | PyFloat x, PyFloat y => spec_float_eqb x y
  | PyStr x, PyStr y => String.eqb x y
  | PyList x, PyList y => list_eqb py_is x y
  | PyTuple x, PyTuple y => list_eqb py_is x y
  | PyGeo t c, PyGeo t' c' => String.eqb t t' && py_is c c'
  | PyGeoNone, PyGeoNone => true
  | PyObject i, PyObject j => Pos.eqb i j
  | _, _ => false
  end.

(** [a == b].  Numbers compare by value across [int] and [float] and a
    NaN equals nothing; lists and tuples compare item by item, an item
    being equal to itself by identity before [==] is tried (CPython's
    [PyObject_RichCompareBool]); other objects compare by identity. *)
Fixpoint pyeq (a b : pyval) : bool :=
  match a, b with
  | PyNone, PyNone => true
  | PyInt x, PyInt y => Z.eqb x y
  | PyInt x, PyFloat y => int_float_eqb x y
  | PyFloat x, PyInt y => int_float_eqb y x
  | PyFloat x, PyFloat y => SFeqb x y
  | PyStr x, PyStr y => String.eqb x y
  | PyList x, PyList y => list_eqb (fun u v => py_is u v || pyeq u v) x y
  | PyTuple x, PyTuple y => list_eqb (fun u v => py_is u v || pyeq u v) x y
  | PyGeo _ _, PyGeo _ _ => py_is a b
  | PyGeoNone, PyGeoNone => true
  | PyObject i, PyObject j => Pos.eqb i j
  | _, _ => false
  end.

(** What a container compares its items with: identity, then [==]. *)
Definition item_eq (a b : pyval) : bool := py_is a b || pyeq a b.

(** [a != b]: on every value of the universe the negation of [==]. *)
Definition pyne (a b : pyval) : bool := negb (pyeq a b).

(** [bool(v)], the test of an [if]. *)
Definition truthy (v : pyval) : bool :=
  match v with
  | PyNone => false
  | PyInt n => negb (Z.eqb n 0)
  | PyFloat (S754_zero _) => false
  | PyFloat _ => true
  | PyStr s => negb (String.eqb s "")
  | PyList l | PyTuple l => match l with [] => false | _ => true end
  | PyGeo _ _ | PyGeoNone | PyObject _ => true
  end.

(** [hasattr(v, '__geo_interface__')] *)
Definition has_geo_interface (v : pyval) : bool :=
  match v with
  | PyGeo _ _ | PyGeoNone => true
  | _ => false
  end.

(** [isinstance(v, (list, tuple))] *)
Definition is_list_or_tuple (v : pyval) : bool :=
  match v with
  | PyList _ | PyTuple _ => true
  | _ => false
  end.

(** [v.__geo_interface__['type']] and [v.__geo_interface__['coordinates']]
    together; subscripting the [None] of an empty geometry is a
    [TypeError]. *)
Definition geo_interface (v : pyval) : result (string * pyval) :=
  match v with
  | PyGeo ty c => Ok (ty, c)
  | _ => Raise TypeError
  end.

(** The items [iter(v)] yields, for [for x in v], [list(v)], [tuple(v)]. *)
Definition py_iter (v : pyval) : result (list pyval) :=
  match v with
  | PyList l | PyTuple l => Ok l
  | PyStr s => Ok (map (fun c => str_of [c]) (list_ascii_of_string s))
  | _ => Raise TypeError
  end.

(** [len(v)] *)
Definition py_len (v : pyval) : result nat :=
  match v with
  | PyList l | PyTuple l => Ok (List.length l)
  | PyStr s => Ok (String.length s)
  | _ => Raise TypeError
  end.

(** [l[i]] on the items of a sequence, [i] possibly negative. *)
Definition index_items (l : list pyval) (i : Z) : result pyval :=
  let n := Z.of_nat (List.length l) in
  let j := if Z.ltb i 0 then i + n else i in
  if (Z.leb 0 j && Z.ltb j n)%bool
  then match nth_error l (Z.to_nat j) with
       | Some x => Ok x
       | None => Raise IndexError
       end
  else Raise IndexError.

(** [v[i]] *)
Definition py_getitem (v : pyval) (i : Z) : result pyval :=
  match v with
  | PyList l | PyTuple l => index_items l i
  | PyStr s =>
      index_items (map (fun c => str_of [c]) (list_ascii_of_string s)) i
  | _ => Raise TypeError
  end.

(** [v.append(x)]: only a list has the method. *)
Definition py_append (v x : pyval) : result pyval :=
  match v with
  | PyList l => Ok (PyList (l ++ [x]))
  | _ => Raise AttributeError
  end.

(** [float(v)] *)
Definition py_float (v : pyval) : result spec_float :=
  match v with
  | PyInt n => float_of_int n
  | PyFloat f => Ok f
  | PyStr s =>
      match float_of_string s with
      | Some f => Ok f
      | None => Raise ValueError
      end
  | _ => Raise TypeError
  end.

(** [[float(x) for x in l]] *)
Definition floats_of (l : list pyval) : result (list pyval) :=
  mapM (fun x => f <- py_float x ;; Ok (PyFloat f)) l.

(** [v[k:]] *)
Definition py_slice_from (v : pyval) (k : nat) : result pyval :=
  match v with
  | PyList l => Ok (PyList (skipn k l))
  | PyTuple l => Ok (PyTuple (skipn k l))
  | PyStr s =>
      Ok (str_of (skipn k (list_ascii_of_string s)))
  | _ => Raise TypeError
  end.

(** [hash(v)] succeeds: a list is unhashable, and so is a tuple that
    holds one. *)
Fixpoint hashable (v : pyval) : bool :=
  match v with
  | PyList _ => false
  | PyTuple l => forallb hashable l
  | _ => true
  end.

(** ** class _Feature *)

Module _Feature.

(** The property [__geo_interface__]: the mapping, or [None] when the
    type or the stored coordinates are falsy. *)
Definition __geo_interface__ (_type : string) (_coordinates : pyval)
  : result (option (string * pyval)) :=
  if (truthy (PyStr _type) && truthy _coordinates)%bool
  then items <- py_iter _coordinates ;; Ok (Some (_type, PyTuple items))
  else Ok None.

End _Feature.

(** ** class Point *)

Module Point.

Definition _type : string := "Point".

(** [self._coordinates] is always a Python list. *)
Record t : Type := { _coordinates : list pyval }.

Definition __init__ (args : list pyval) : result t :=
  match args with
  | [a] =>
      if has_geo_interface a then
        gi <- geo_interface a ;;
        if String.eqb (fst gi) "Point"
        then items <- py_iter (snd gi) ;; Ok {| _coordinates := items |}
        else Raise TypeError
      else
        match a with
        | PyList l | PyTuple l =>
            if (Nat.leb 2 (List.length l) && Nat.leb (List.length l) 3)%bool
            then coords <- floats_of l ;; Ok {| _coordinates := coords |}
            else Raise TypeError
        | _ => Raise TypeError
        end
  | _ =>
      if (Nat.leb 2 (List.length args) && Nat.leb (List.length args) 3)%bool
      then coords <- floats_of args ;; Ok {| _coordinates := coords |}
      else Raise ValueError
  end.

Definition x (self : t) : result pyval := index_items (_coordinates self) 0.

Definition y (self : t) : result pyval := index_items (_coordinates self) 1.

Definition z (self : t) : result pyval :=
  if negb (Nat.eqb (List.length (_coordinates self)) 3)
  then Raise ValueError
  else index_items (_coordinates self) 2.

Definition coords (self : t) : pyval := PyTuple (_coordinates self).

Definition __geo_interface__ (self : t) :=
  _Feature.__geo_interface__ _type (PyList (_coordinates self)).

(** The setter of [coords]: the object after the call, and the
    exception the call raised, if any. *)
Definition set_coords (self : t) (coordinates : pyval) : t * option exn :=
  match coordinates with
  | PyList l | PyTuple l =>
      if (Nat.leb 2 (List.length l) && Nat.leb (List.length l) 3)%bool
      then match floats_of l with
           | Ok coords => ({| _coordinates := coords |}, None)
           | Raise e => (self, Some e)
           end
      else (self, Some TypeError)
  | _ => (self, Some TypeError)
  end.

End Point.

Arguments Point.__init__ : simpl never.

(** ** class LineString *)

Module LineString.

Definition _type : string := "LineString".

(** [self._coordinates] is a fresh list when built from a raw sequence,
    and whatever the mapping held when built from an object. *)
Record t : Type := { _coordinates : pyval }.

(** The body of [for coord in coordinates]: [coords] is the list built
    so far and [l2] the local of that name, unbound before the first
    pass. *)
Fixpoint init_loop (coordinates : list pyval) (coords : list pyval)
         (l2 : option nat) : result (list pyval) :=
  match coordinates with
  | [] => Ok coords
  | coord :: rest =>
      p <- Point.__init__ [coord] ;;
      let l := List.length (Point._coordinates p) in
      _ <- (if truthy (PyList coords)
            then match l2 with
                 | None => Raise UnboundLocalError
                 | Some l2 => if negb (Nat.eqb l l2)
                              then Raise ValueError else Ok tt
                 end
            else Ok tt) ;;
      init_loop rest (coords ++ [Point.coords p]) (Some l)
  end.

Definition __init__ (coordinates : pyval) : result t :=
  if has_geo_interface coordinates then
    gi <- geo_interface coordinates ;;
    if (String.eqb (fst gi) "LineString"
        || String.eqb (fst gi) "LinearRing")%bool
    then Ok {| _coordinates := snd gi |}
    else if String.eqb (fst gi) "Polygon" then Raise ValueError
    else Raise NotImplementedError
  else
    match coordinates with
    | PyList l | PyTuple l =>
        coords <- init_loop l [] None ;;
        Ok {| _coordinates := PyList coords |}
    | _ => Raise ValueError
    end.

Definition coords (self : t) : result pyval :=
  items <- py_iter (_coordinates self) ;; Ok (PyTuple items).

(** The setter of [coords]: the object after the call, and the
    exception the call raised, if any. *)
Definition set_coords (self : t) (coordinates : pyval) : t * option exn :=
  match coordinates with
  | PyList l | PyTuple l =>
      match init_loop l [] None with
      | Ok coords => ({| _coordinates := PyList coords |}, None)
      | Raise e => (self, Some e)
      end
  | _ => (self, Some ValueError)
  end.

Definition __geo_interface__ (self : t) :=
  _Feature.__geo_interface__ _type (_coordinates self).

End LineString.

(** ** class LinearRing(LineString) *)

Module LinearRing.

Definition _type : string := "LinearRing".

(** The two statements both [__init__] and the setter end with:
    [if self._coordinates[0] != self._coordinates[-1]:
         self._coordinates.append(self._coordinates[0])].
    When the list came from a mapping object the append changes that
    object's list as well; the result is the ring's own view of it. *)
Definition close (self : LineString.t) : result LineString.t :=
  let c := LineString._coordinates self in
  first <- py_getitem c 0 ;;
  last <- py_getitem c (-1) ;;
  if pyne first last
  then first' <- py_getitem c 0 ;;
       c' <- py_append c first' ;;
       Ok {| LineString._coordinates := c' |}
  else Ok self.

(** [coordinates] defaults to [None]. *)
Definition __init__ (coordinates : pyval) : result LineString.t :=
  self <- LineString.__init__ coordinates ;;
  close self.

Definition coords (self : LineString.t) : result pyval :=
  let c := LineString._coordinates self in
  first <- py_getitem c 0 ;;
  last <- py_getitem c (-1) ;;
  if pyeq first last
  then items <- py_iter c ;; Ok (PyTuple items)
  else Raise ValueError.

Definition set_coords (self : LineString.t) (coordinates : pyval)
  : LineString.t * option exn :=
  match LineString.set_coords self coordinates with
  | (self', Some e) => (self', Some e)
  | (self', None) =>
      match close self' with
      | Ok self'' => (self'', None)
      | Raise e => (self', Some e)
      end
  end.

Definition __geo_interface__ (self : LineString.t) :=
  _Feature.__geo_interface__ _type (LineString._coordinates self).

End LinearRing.

(** ** class Polygon *)

Module Polygon.

Definition _type : string := "Polygon".

Record t : Type :=
  { _exterior : LineString.t;
    _interiors : list LineString.t }.

(** The body of [for hole in holes]: a value that neither exposes the
    protocol nor is a list or tuple is passed over. *)
Fixpoint holes_loop (holes : list pyval) (interiors : list LineString.t)
  : result (list LineString.t) :=
  match holes with
  | [] => Ok interiors
  | hole :: rest =>
      if has_geo_interface hole then
        gi <- geo_interface hole ;;
        if String.eqb (fst gi) "LinearRing"
        then r <- LinearRing.__init__ hole ;;
             holes_loop rest (interiors ++ [r])
        else Raise NotImplementedError
      else if is_list_or_tuple hole then
        r <- LinearRing.__init__ hole ;;
        holes_loop rest (interiors ++ [r])
      else holes_loop rest interiors
  end.

(** [holes] defaults to [None]. *)
Definition __init__ (shell holes : pyval) : result t :=
  interiors <- (if truthy holes
                then hs <- py_iter holes ;; holes_loop hs []
                else Ok []) ;;
  if has_geo_interface shell then
    gi <- geo_interface shell ;;
    if String.eqb (fst gi) "LinearRing" then
      ext <- LinearRing.__init__ shell ;;
      Ok {| _exterior := ext; _interiors := interiors |}
    else if String.eqb (fst gi) "Polygon" then
      ring0 <- py_getitem (snd gi) 0 ;;
      ext <- LinearRing.__init__ ring0 ;;
      n <- py_len (snd gi) ;;
      if Nat.ltb 1 n then
        tail <- py_slice_from (snd gi) 1 ;;
        hs <- py_iter tail ;;
        rings <- mapM LinearRing.__init__ hs ;;
        Ok {| _exterior := ext; _interiors := rings |}
      else Ok {| _exterior := ext; _interiors := interiors |}
    else Raise NotImplementedError
  else if is_list_or_tuple shell then
    s0 <- py_getitem shell 0 ;;
    if negb (is_list_or_tuple s0) then Raise AssertionError
    else
      s00 <- py_getitem s0 0 ;;
      if is_list_or_tuple s00 then
        ext <- LinearRing.__init__ s0 ;;
        s1 <- py_getitem shell 1 ;;
        hs <- py_iter s1 ;;
        rings <- mapM LinearRing.__init__ hs ;;
        Ok {| _exterior := ext; _interiors := interiors ++ rings |}
      else
        ext <- LinearRing.__init__ shell ;;
        Ok {| _exterior := ext; _interiors := interiors |}
  else Raise ValueError.

(** After [__init__] has returned, [self._exterior] is set; the branch
    of [interiors] for a polygon without exterior is never taken. *)
Definition exterior (self : t) : LineString.t := _exterior self.

(** The generator [interiors], run to its end. *)
Definition interiors (self : t) : list LineString.t := _interiors self.

(** The property [__geo_interface__]: the coordinates of the exterior,
    followed by those of the interiors when there are any, each read
    through [LinearRing.coords]. *)
Definition __geo_interface__ (self : t) : result (option (string * pyval)) :=
  match _interiors self with
  | _ :: _ =>
      ext <- LinearRing.coords (exterior self) ;;
      holes <- mapM LinearRing.coords (interiors self) ;;
      Ok (Some (_type, PyTuple (ext :: holes)))
  | [] =>
      ext <- LinearRing.coords (_exterior self) ;;
      Ok (Some (_type, PyTuple [ext]))
  end.

End Polygon.

(** ** class MultiPoint *)

Module MultiPoint.

Definition _type : string := "MultiPoint".

Record t : Type := { _geoms : list Point.t }.

Definition points_of (coords : pyval) : result (list Point.t) :=
  cs <- py_iter coords ;; mapM (fun c => Point.__init__ [c]) cs.

Fixpoint interiors_points (rings : list LineString.t)
  : result (list Point.t) :=
  match rings with
  | [] => Ok []
  | interior :: rest =>
      c <- LinearRing.coords interior ;;
      ps <- points_of c ;;
      qs <- interiors_points rest ;;
      Ok (ps ++ qs)
  end.

(** [_from_geo_interface]: the points it appends to [self._geoms].  In
    the branch of a polygon the loop over the exterior binds the local
    [p], until then the polygon, to each point it builds; once the loop
    has run, [p.interiors] is looked up on a point, which has no such
    attribute. *)
Definition _from_geo_interface (point : pyval) : result (list Point.t) :=
  gi <- geo_interface point ;;
  if String.eqb (fst gi) "Point" then
    p <- Point.__init__ [point] ;; Ok [p]
  else if (String.eqb (fst gi) "LinearRing"
           || String.eqb (fst gi) "LineString")%bool then
    l <- LineString.__init__ point ;;
    c <- LineString.coords l ;;
    points_of c
  else if String.eqb (fst gi) "Polygon" then
    p <- Polygon.__init__ (snd gi) PyNone ;;
    c <- LinearRing.coords (Polygon.exterior p) ;;
    ps <- points_of c ;;
    match ps with
    | [] => interiors_points (Polygon.interiors p)
    | _ :: _ => Raise AttributeError
    end
  else Raise ValueError.

Fixpoint init_loop (points : list pyval) (geoms : list Point.t)
  : result (list Point.t) :=
  match points with
  | [] => Ok geoms
  | point :: rest =>
      if has_geo_interface point then
        ps <- _from_geo_interface point ;;
        init_loop rest (geoms ++ ps)
      else if is_list_or_tuple point then
        p <- Point.__init__ [point] ;;
        init_loop rest (geoms ++ [p])
      else Raise ValueError
  end.

Definition __init__ (points : pyval) : result t :=
  match points with
  | PyList l | PyTuple l =>
      geoms <- init_loop l [] ;; Ok {| _geoms := geoms |}
  | _ =>
      if has_geo_interface points then
        geoms <- _from_geo_interface points ;; Ok {| _geoms := geoms |}
      else Raise ValueError
  end.

Definition geoms (self : t) : list Point.t := _geoms self.

(** The body of the last loop of [unique], which appends to the
    emptied [self._geoms]; an exception leaves the points appended
    so far. *)
Fixpoint rebuild (coords : list pyval) (geoms : list Point.t)
  : list Point.t * option exn :=
  match coords with
  | [] => (geoms, None)
  | coord :: rest =>
      match Point.__init__ [coord] with
      | Ok p => rebuild rest (geoms ++ [p])
      | Raise e => (geoms, Some e)
      end
  end.

Section Unique.

(** [list(set(l))]: the items of the set built from [l], in the order
    the hash table yields them, which the language leaves open. *)
Variable set_items : list pyval -> list pyval.

(** [unique]: the object after the call, and the exception raised,
    if any. *)
Definition unique (self : t) : t * option exn :=
  let coords := map Point.coords (geoms self) in
  if forallb hashable coords
  then let '(geoms', e) := rebuild (set_items coords) [] in
       ({| _geoms := geoms' |}, e)
  else (self, Some TypeError).

End Unique.

(** The property [__geo_interface__]: for each child [g.coords[0]],
    the first number of its coordinates. *)
Definition __geo_interface__ (self : t) : result (string * pyval) :=
  xs <- mapM (fun g => py_getitem (Point.coords g) 0) (_geoms self) ;;
  Ok (_type, PyTuple xs).

End MultiPoint.

(** ** class MultiLineString *)

Module MultiLineString.

Definition _type : string := "MultiLineString".

Record t : Type := { _geoms : list LineString.t }.

Definition __init__ (lines : pyval) : result t :=
  match lines with
  | PyList l | PyTuple l =>
      geoms <- mapM LineString.__init__ l ;; Ok {| _geoms := geoms |}
  | _ =>
      if has_geo_interface lines then
        gi <- geo_interface lines ;;
        if (String.eqb (fst gi) "LinearRing"
            || String.eqb (fst gi) "LineString")%bool then
          l <- LineString.__init__ (snd gi) ;; Ok {| _geoms := [l] |}
        else if String.eqb (fst gi) "MultiLineString" then
          ls <- py_iter (snd gi) ;;
          geoms <- mapM LineString.__init__ ls ;;
          Ok {| _geoms := geoms |}
        else Ok {| _geoms := [] |}
      else Raise ValueError
  end.

Definition geoms (self : t) : list LineString.t := _geoms self.

(** The property [__geo_interface__]: the coordinates of each line. *)
Definition __geo_interface__ (self : t) : result (string * pyval) :=
  lines <- mapM LineString.coords (geoms self) ;;
  Ok (_type, PyTuple lines).

End MultiLineString.

(** ** class MultiPolygon *)

Module MultiPolygon.

Definition _type : string := "MultiPolygon".

Record t : Type := { _geoms : list Polygon.t }.

Definition init_item (polygon : pyval) : result Polygon.t :=
  if is_list_or_tuple polygon then
    shell <- py_getitem polygon 0 ;;
    holes <- py_getitem polygon 1 ;;
    Polygon.__init__ shell holes
  else if has_geo_interface polygon then Polygon.__init__ polygon PyNone
  else Raise ValueError.

Definition __init__ (polygons : pyval) : result t :=
  match polygons with
  | PyList l | PyTuple l =>
      geoms <- mapM init_item l ;; Ok {| _geoms := geoms |}
  | _ =>
      if has_geo_interface polygons then
        gi <- geo_interface polygons ;;
        if String.eqb (fst gi) "Polygon" then
          p <- Polygon.__init__ polygons PyNone ;; Ok {| _geoms := [p] |}
        else if String.eqb (fst gi) "MultiPolygon"
             then Raise NotImplementedError
             else Ok {| _geoms := [] |}
      else Raise ValueError
  end.

Definition geoms (self : t) : list Polygon.t := _geoms self.

(** The list [coords] the property builds for one polygon. *)
Definition polygon_coords (geom : Polygon.t) : result pyval :=
  ext <- LinearRing.coords (Polygon.exterior geom) ;;
  holes <- mapM LinearRing.coords (Polygon.interiors geom) ;;
  Ok (PyList (ext :: holes)).

(** The property [__geo_interface__]: a list with one list per polygon. *)
Definition __geo_interface__ (self : t) : result (string * pyval) :=
  allcoords <- mapM polygon_coords (geoms self) ;;
  Ok (_type, PyList allcoords).

End MultiPolygon.

(** ** Module-level functions *)

(** What [as_shape] and [from_wkt] hand back: a geometry of one of the
    classes, or, for [as_shape], an exception instance given back as a
    value. *)
Inductive shape : Type :=
| APoint (p : Point.t)
| ALineString (l : LineString.t)
| ALinearRing (r : LineString.t)
| APolygon (p : Polygon.t)
| AMultiPoint (m : MultiPoint.t)
| AMultiLineString (m : MultiLineString.t)
| AMultiPolygon (m : MultiPolygon.t)
| AnException (e : exn) (message : string).

Definition as_shape (feature : pyval) : result shape :=
  if has_geo_interface feature then
    gi <- geo_interface feature ;;
    let coords := snd gi in
    let ft := fst gi in
    if String.eqb ft "Point" then
      p <- Point.__init__ [coords] ;; Ok (APoint p)
    else if String.eqb ft "LineString" then
      l <- LineString.__init__ coords ;; Ok (ALineString l)
    else if String.eqb ft "LinearRing" then
      r <- LinearRing.__init__ coords ;; Ok (ALinearRing r)
    else if String.eqb ft "Polygon" then
      p <- Polygon.__init__ coords PyNone ;; Ok (APolygon p)
    else if String.eqb ft "MultiPoint" then
      m <- MultiPoint.__init__ coords ;; Ok (AMultiPoint m)
    else if String.eqb ft "MultiLineString" then
      m <- MultiLineString.__init__ coords ;; Ok (AMultiLineString m)
    else if String.eqb ft "MultiPolygon" then
      m <- MultiPolygon.__init__ coords ;; Ok (AMultiPolygon m)
    else Raise NotImplementedError
  else Ok (AnException TypeError "Object does not implement __geo_interface__").

(** [wkt[wkt.find('(') + 1 : wkt.find(')')]] *)
Definition between_parens (wkt : list ascii) : list ascii :=
  slice_chars wkt (find_char "("%char wkt + 1) (find_char ")"%char wkt).

Definition from_wkt (geo_str : string) : result shape :=
  let wkt := strip geo_str in
  let body := between_parens (list_ascii_of_string wkt) in
  if String.prefix "POINT" wkt then
    let coords := map str_of (split_ws body) in
    p <- Point.__init__ [PyList coords] ;; Ok (APoint p)
  else if String.prefix "LINESTRING" wkt then
    let coords := split_on ","%char body in
    l <- LineString.__init__
           (PyList (map (fun c => PyList (map str_of (split_ws c))) coords)) ;;
    Ok (ALineString l)
  else if String.prefix "LINEARRING" wkt then
    let coords := split_on ","%char body in
    r <- LinearRing.__init__
           (PyList (map (fun c => PyList (map str_of (split_ws c))) coords)) ;;
    Ok (ALinearRing r)
  else Raise NotImplementedError.

(** ** Vocabulary of the properties *)

(** The float a decimal literal of the source denotes. *)
Definition float_lit (s : string) : spec_float :=
  match float_of_string s with
  | Some f => f
  | None => S754_nan
  end.

(** The test [LinearRing.coords] makes before it answers:
    [self._coordinates[0] == self._coordinates[-1]]. *)
Definition ring_closed (self : LineString.t) : bool :=
  match py_getitem (LineString._coordinates self) 0,
        py_getitem (LineString._coordinates self) (-1) with
  | Ok first, Ok last => pyeq first last
  | _, _ => false
  end.

(** A float that is a NaN, standing where a coordinate should: the one
    value that [==] does not find equal to itself. *)
Definition bare_nan (v : pyval) : bool :=
  match v with
  | PyFloat f => is_nan f
  | _ => false
  end.

(** A raw sequence whose items are themselves lists or tuples. *)
Definition raw_points (v : pyval) : bool :=
  match v with
  | PyList l | PyTuple l => forallb is_list_or_tuple l
  | _ => false
  end.

(** The first and the last coordinate are one object or equal ones:
    what a sequence compares two of its items with. *)
Definition ring_ends_meet (self : LineString.t) : bool :=
  match py_getitem (LineString._coordinates self) 0,
        py_getitem (LineString._coordinates self) (-1) with
  | Ok first, Ok last => item_eq first last
  | _, _ => false
  end.

Definition is_float (v : pyval) : bool :=
  match v with
  | PyFloat _ => true
  | _ => false
  end.

(** A Coordinate of the data model: a tuple of two or three floats. *)
Definition is_coordinate (v : pyval) : bool :=
  match v with
  | PyTuple l =>
      Nat.leb 2 (List.length l) && Nat.leb (List.length l) 3
      && forallb is_float l
  | _ => false
  end.

(** The number of items of a stored coordinate. *)
Definition dimension (v : pyval) : nat :=
  match v with
  | PyTuple l | PyList l => List.length l
  | _ => 0%nat
  end.

(** All the coordinates are of the length of the first. *)
Definition same_dimension (l : list pyval) : bool :=
  match l with
  | [] => true
  | c :: l' => forallb (fun d => Nat.eqb (dimension d) (dimension c)) l'
  end.

(** The stored sequence is a list or a tuple of Coordinates of one
    length: what the constructors build from raw numbers. *)
Definition normalised (self : LineString.t) : bool :=
  match LineString._coordinates self with
  | PyList l | PyTuple l => forallb is_coordinate l && same_dimension l
  | _ => false
  end.

(** Every child of the collection owns a Coordinate. *)
Definition points_valid (m : MultiPoint.t) : bool :=
  forallb (fun p => is_coordinate (Point.coords p)) (MultiPoint.geoms m).

(** One way of listing a set: keep an item unless an equal one is kept
    already. *)
Fixpoint distinct_items (l : list pyval) : list pyval :=
  match l with
  | [] => []
  | a :: l' =>
      if existsb (item_eq a) (distinct_items l')
      then distinct_items l'
      else a :: distinct_items l'
  end.

(** The points [LineString]'s loop makes of the items of a raw
    sequence, when [Point] accepts every one of them. *)
Definition points_of_raw (cs : list pyval) : result (list Point.t) :=
  mapM (fun c => Point.__init__ [c]) cs.

Definition point_dim (p : Point.t) : nat :=
  List.length (Point._coordinates p).

(** Each point is as long as the one before it, [prev] being the length
    of the point before the first, if there is one. *)
Fixpoint lengths_agree (prev : option nat) (ps : list Point.t) : bool :=
  match ps with
  | [] => true
  | p :: ps' =>
      match prev with
      | None => true
      | Some k => Nat.eqb (point_dim p) k
      end && lengths_agree (Some (point_dim p)) ps'
  end.

(** The class of a geometry [as_shape] or [from_wkt] hands back. *)
Definition shape_type (s : shape) : option string :=
  match s with
  | APoint _ => Some Point._type
  | ALineString _ => Some LineString._type
  | ALinearRing _ => Some LinearRing._type
  | APolygon _ => Some Polygon._type
  | AMultiPoint _ => Some MultiPoint._type
  | AMultiLineString _ => Some MultiLineString._type
  | AMultiPolygon _ => Some MultiPolygon._type
  | AnException _ _ => None
  end.

(** A ring as the constructors build it from raw numbers: normalised and
    closed. *)
Definition ring_normal (self : LineString.t) : bool :=
  normalised self && ring_closed self.

(** A polygon all of whose rings are such rings. *)
Definition polygon_normal (p : Polygon.t) : bool :=
  ring_normal (Polygon.exterior p)
  && forallb ring_normal (Polygon.interiors p).

(** The coordinates a line or ring stores in a list or a tuple. *)
Definition stored_items (self : LineString.t) : list pyval :=
  match LineString._coordinates self with
  | PyList l | PyTuple l => l
  | _ => []
  end.

(** The same coordinates, stored in a list. *)
Definition as_list (self : LineString.t) : LineString.t :=
  {| LineString._coordinates := PyList (stored_items self) |}.

(** What [__geo_interface__] reads of a ring: the tuple of its
    coordinates. *)
Definition ring_tuple (self : LineString.t) : pyval :=
  PyTuple (stored_items self).

(** The coordinates of the mapping of a polygon: the tuple of its
    exterior, then those of its interiors. *)
Definition polygon_tuple (p : Polygon.t) : pyval :=
  PyTuple (ring_tuple (Polygon.exterior p)
           :: map ring_tuple (Polygon.interiors p)).

(** The polygon with every ring stored in a list. *)
Definition polygon_as_lists (p : Polygon.t) : Polygon.t :=
  {| Polygon._exterior := as_list (Polygon.exterior p);
     Polygon._interiors := map as_list (Polygon.interiors p) |}.

(** A value in whose comparisons identity plays no part: no NaN and no
    object compared by identity anywhere in it. *)
Fixpoint plain (v : pyval) : bool :=
  match v with
  | PyNone | PyInt _ | PyStr _ => true
  | PyFloat f => negb (is_nan f)
  | PyList l | PyTuple l => forallb plain l
  | PyGeo _ _ | PyGeoNone | PyObject _ => false
  end.

(** ** Sample inputs *)

(** A mapping whose coordinates are bare numbers, the first a NaN. *)
Definition nan_line : pyval :=
  PyGeo "LineString"
    (PyList [PyFloat S754_nan; PyFloat (float_lit "1.0")]).

(** A collection with one point that kept the strings of its mapping,
    and one with two points that kept large integers. *)
Definition text_points : MultiPoint.t :=
  {| MultiPoint._geoms :=
      [{| Point._coordinates := [PyStr "a"; PyStr "b"] |}] |}.

Definition big_points : MultiPoint.t :=
  {| MultiPoint._geoms :=
      [{| Point._coordinates := [PyInt 9007199254740993; PyInt 0] |}] |}.

(** An object such as a decoded GeoJSON geometry: a closed line whose
    mapping holds lists of integers. *)
Definition geojson_line : pyval :=
  PyGeo "LineString"
    (PyList [PyList [PyInt 0; PyInt 0];
             PyList [PyInt 1; PyInt 1];
             PyList [PyInt 0; PyInt 0]]).

(** A mapping that holds a point of two and a point of three numbers. *)
Definition mixed_line : pyval :=
  PyGeo "LineString"
    (PyTuple [PyTuple [PyInt 0; PyInt 0];
              PyTuple [PyInt 1; PyInt 1; PyInt 1];
              PyTuple [PyInt 0; PyInt 0]]).

Definition unit_square : pyval :=
  PyTuple [PyTuple [PyInt 0; PyInt 0]; PyTuple [PyInt 0; PyInt 1];
           PyTuple [PyInt 1; PyInt 1]; PyTuple [PyInt 1; PyInt 0];
           PyTuple [PyInt 0; PyInt 0]].

Definition small_triangle : pyval :=
  PyTuple [PyTuple [PyFloat (float_lit "0.1"); PyFloat (float_lit "0.1")];
           PyTuple [PyFloat (float_lit "0.1"); PyFloat (float_lit "0.2")];
           PyTuple [PyFloat (float_lit "0.2"); PyFloat (float_lit "0.2")];
           PyTuple [PyFloat (float_lit "0.1"); PyFloat (float_lit "0.1")]].

(** A polygon given as a mapping with the exterior ring only. *)
Definition square_polygon : pyval := PyGeo "Polygon" (PyTuple [unit_square]).

(** * Properties *)

(** ** The error monad *)

Lemma bind_ok {A B : Type} (c : result A) (k : A -> result B) (b : B) :
  bind c k = Ok b -> exists a, c = Ok a /\ k a = Ok b.
Proof.
  destruct c as [a | e]; simpl; intros H.
  - exists a. split; [reflexivity | exact H].
  - discriminate H.
Qed.

Tactic Notation "bind_inv" hyp(H) "as" ident(a) ident(Ha) :=
  apply bind_ok in H; destruct H as [a [Ha H]].

Lemma floats_of_mapM (l : list pyval) (fs : list spec_float) :
  mapM py_float l = Ok fs -> floats_of l = Ok (map PyFloat fs).
Proof.
  unfold floats_of. revert fs.
  induction l as [| a l IH]; simpl; intros fs H.
  - inversion H. reflexivity.
  - bind_inv H as f Hf. bind_inv H as fs' Hfs. inversion H; subst.
    rewrite Hf. simpl. rewrite (IH _ Hfs). reflexivity.
Qed.

(** ** Point *)

(** C2: a list or tuple [c] of two or three values that [float] accepts
    makes [Point(c)] succeed with the tuple of the coerced values as its
    coordinates, and so do the same values passed positionally; no
    positional value, or more than three, is a [ValueError]. *)
Theorem Point_init_coerces :
  (forall (c : list pyval) (fs : list spec_float),
      (List.length c = 2 \/ List.length c = 3)%nat ->
      mapM py_float c = Ok fs ->
      exists p,
        Point.__init__ [PyList c] = Ok p /\
        Point.__init__ [PyTuple c] = Ok p /\
        Point.__init__ c = Ok p /\
        Point.coords p = PyTuple (map PyFloat fs)) /\
  Point.__init__ [] = Raise ValueError /\
  (forall args : list pyval,
      (3 < List.length args)%nat -> Point.__init__ args = Raise ValueError).
Proof.
  split; [| split].
  - intros c fs Hlen Hfs.
    exists {| Point._coordinates := map PyFloat fs |}.
    pose proof (floats_of_mapM _ _ Hfs) as Hc.
    assert (Hb : (Nat.leb 2 (List.length c)
                  && Nat.leb (List.length c) 3)%bool = true)
      by (destruct Hlen as [-> | ->]; reflexivity).
    repeat split.
    + unfold Point.__init__, has_geo_interface. rewrite Hb, Hc. reflexivity.
    + unfold Point.__init__, has_geo_interface. rewrite Hb, Hc. reflexivity.
    + destruct c as [| a [| b [| d [| e c]]]]; simpl in Hlen;
        try (destruct Hlen; discriminate).
      * unfold Point.__init__. rewrite Hc. reflexivity.
      * unfold Point.__init__. rewrite Hc. reflexivity.
  - reflexivity.
  - intros args Hlen.
    destruct args as [| a [| b [| d [| e args]]]]; simpl in Hlen; try lia.
    reflexivity.
Qed.

Lemma Point_init_coerces_witness :
  (exists p,
      Point.__init__ [PyList [PyInt 1; PyStr "2.5"]] = Ok p /\
      Point.coords p
      = PyTuple [PyFloat (float_lit "1.0"); PyFloat (float_lit "2.5")]) /\
  Point.__init__ [PyInt 1; PyInt 2; PyInt 3; PyInt 4] = Raise ValueError.
Proof.
  destruct Point_init_coerces as [Hseq [_ Hmany]].
  split.
  - destruct (Hseq [PyInt 1; PyStr "2.5"]
                [float_lit "1.0"; float_lit "2.5"]) as [p [Hp [_ [_ Hc]]]].
    + left. reflexivity.
    + vm_compute. reflexivity.
    + exists p. split; assumption.
  - apply Hmany. simpl. lia.
Defined.

(** ** as_shape *)

(** C4: for an input without [__geo_interface__] the code does not
    raise: [as_shape] returns, as an ordinary value, a [TypeError]
    instance. *)
Theorem as_shape_returns_TypeError (feature : pyval) :
  has_geo_interface feature = false ->
  as_shape feature
  = Ok (AnException TypeError "Object does not implement __geo_interface__")
  /\ as_shape feature <> Raise TypeError.
Proof.
  intros H. unfold as_shape. rewrite H. split; [reflexivity | discriminate].
Qed.

Lemma as_shape_returns_TypeError_witness :
  as_shape (PyTuple [PyInt 0; PyInt 0])
  = Ok (AnException TypeError "Object does not implement __geo_interface__")
  /\ as_shape (PyTuple [PyInt 0; PyInt 0]) <> Raise TypeError.
Proof.
  apply (as_shape_returns_TypeError (PyTuple [PyInt 0; PyInt 0])).
  reflexivity.
Defined.

(** ** from_wkt *)

(** C5: [from_wkt("POINT (1.0 -1.0)")] is a Point with the coordinates
    of [Point(1.0, -1.0)]; [from_wkt("LINESTRING (0 0, 1 0, 1 1)")] is a
    LineString with coordinates [((0.0,0.0),(1.0,0.0),(1.0,1.0))]; text
    that, once stripped, starts with none of POINT, LINESTRING and
    LINEARRING raises [NotImplementedError]. *)
Theorem from_wkt_subset :
  (exists p q,
      from_wkt "POINT (1.0 -1.0)" = Ok (APoint p) /\
      Point.__init__ [PyFloat (float_lit "1.0");
                      PyFloat (SFopp (float_lit "1.0"))] = Ok q /\
      Point.coords p = Point.coords q) /\
  (exists l,
      from_wkt "LINESTRING (0 0, 1 0, 1 1)" = Ok (ALineString l) /\
      LineString.coords l
      = Ok (PyTuple
              [PyTuple [PyFloat (float_lit "0.0"); PyFloat (float_lit "0.0")];
               PyTuple [PyFloat (float_lit "1.0"); PyFloat (float_lit "0.0")];
               PyTuple [PyFloat (float_lit "1.0"); PyFloat (float_lit "1.0")]]))
  /\
  (forall geo_str : string,
      String.prefix "POINT" (strip geo_str) = false ->
      String.prefix "LINESTRING" (strip geo_str) = false ->
      String.prefix "LINEARRING" (strip geo_str) = false ->
      from_wkt geo_str = Raise NotImplementedError).
Proof.
  split; [| split].
  - eexists. eexists. split; [| split].
    + vm_compute. reflexivity.
    + vm_compute. reflexivity.
    + reflexivity.
  - eexists. split.
    + vm_compute. reflexivity.
    + vm_compute. reflexivity.
  - intros geo_str H1 H2 H3. unfold from_wkt.
    rewrite H1, H2, H3. reflexivity.
Qed.

Lemma from_wkt_subset_witness :
  from_wkt "POLYGON ((0 0, 0 1, 1 1, 0 0))" = Raise NotImplementedError.
Proof.
  destruct from_wkt_subset as [_ [_ H]].
  apply H; reflexivity.
Defined.

(** ** Polygon *)

(** C6: when the shell is a mapping of type "Polygon" that holds the
    exterior ring alone, the interiors of the polygon are the rings built
    from the [holes] argument: the argument is not ignored. *)
Theorem Polygon_mapping_keeps_holes
        (c ring0 holes : pyval) (hs : list pyval)
        (ext : LineString.t) (interiors : list LineString.t) :
  truthy holes = true ->
  py_iter holes = Ok hs ->
  Polygon.holes_loop hs [] = Ok interiors ->
  py_getitem c 0 = Ok ring0 ->
  py_len c = Ok 1%nat ->
  LinearRing.__init__ ring0 = Ok ext ->
  Polygon.__init__ (PyGeo "Polygon" c) holes
  = Ok {| Polygon._exterior := ext; Polygon._interiors := interiors |}.
Proof.
  intros Ht Hi Hl Hg Hn He. unfold Polygon.__init__.
  rewrite Ht, Hi. simpl. rewrite Hl. simpl.
  rewrite Hg. simpl. rewrite He. simpl. rewrite Hn. reflexivity.
Qed.

Lemma Polygon_mapping_keeps_holes_witness :
  exists ext hole,
    Polygon.__init__ square_polygon (PyList [small_triangle])
    = Ok {| Polygon._exterior := ext; Polygon._interiors := [hole] |} /\
    Polygon.__init__ square_polygon PyNone
    = Ok {| Polygon._exterior := ext; Polygon._interiors := [] |}.
Proof.
  eexists. eexists. split.
  - apply (Polygon_mapping_keeps_holes
             (PyTuple [unit_square]) unit_square (PyList [small_triangle])
             [small_triangle]);
      vm_compute; reflexivity.
  - vm_compute. reflexivity.
Defined.

(** ** MultiLineString *)

(** C7: a single object whose mapping is of a type other than
    "LineString", "LinearRing" and "MultiLineString" raises nothing:
    the constructor returns a collection without children. *)
Theorem MultiLineString_other_type_is_empty (ty : string) (c : pyval) :
  ty <> "LineString" -> ty <> "LinearRing" -> ty <> "MultiLineString" ->
  MultiLineString.__init__ (PyGeo ty c)
  = Ok {| MultiLineString._geoms := [] |}.
Proof.
  intros H1 H2 H3. unfold MultiLineString.__init__. simpl.
  apply String.eqb_neq in H1, H2, H3. rewrite H1, H2, H3. reflexivity.
Qed.

Lemma MultiLineString_other_type_is_empty_witness :
  MultiLineString.__init__ (PyGeo "Point" (PyTuple [PyInt 0; PyInt 0]))
  = Ok {| MultiLineString._geoms := [] |}.
Proof.
  apply MultiLineString_other_type_is_empty; discriminate.
Defined.

(** ** The mapping of an empty LineString *)

(** C10: [LineString([])] succeeds and stores the empty list, and so
    does [LineString(())]; the [__geo_interface__] of the result is
    [None]; for a stored list [l] the property yields the mapping
    [{'type': 'LineString', 'coordinates': tuple(l)}] exactly when [l] is
    not empty; and whenever it yields a mapping the stored coordinates
    are truthy. *)
Theorem LineString_empty_has_no_mapping :
  LineString.__init__ (PyList [])
  = Ok {| LineString._coordinates := PyList [] |} /\
  LineString.__init__ (PyTuple [])
  = Ok {| LineString._coordinates := PyList [] |} /\
  LineString.__geo_interface__ {| LineString._coordinates := PyList [] |}
  = Ok None /\
  (forall l : list pyval,
      LineString.__geo_interface__ {| LineString._coordinates := PyList l |}
      = Ok (match l with
            | [] => None
            | _ => Some ("LineString", PyTuple l)
            end)) /\
  (forall (self : LineString.t) (gi : string * pyval),
      LineString.__geo_interface__ self = Ok (Some gi) ->
      truthy (LineString._coordinates self) = true).
Proof.
  split; [reflexivity | split; [reflexivity | split; [reflexivity | split]]].
  - intros l. destruct l; reflexivity.
  - intros self gi H. unfold LineString.__geo_interface__ in H.
    unfold _Feature.__geo_interface__ in H.
    destruct (truthy (LineString._coordinates self)).
    + reflexivity.
    + rewrite andb_false_r in H. discriminate H.
Qed.

Lemma LineString_empty_has_no_mapping_witness :
  truthy (PyList [PyTuple [PyFloat (float_lit "0.0");
                           PyFloat (float_lit "0.0")]]) = true.
Proof.
  destruct LineString_empty_has_no_mapping as [_ [_ [_ [_ H]]]].
  apply (H {| LineString._coordinates :=
                PyList [PyTuple [PyFloat (float_lit "0.0");
                                 PyFloat (float_lit "0.0")]] |}
           ("LineString", PyTuple [PyTuple [PyFloat (float_lit "0.0");
                                            PyFloat (float_lit "0.0")]])).
  vm_compute. reflexivity.
Defined.

(** ** LineString: one dimension for all the points *)

Lemma py_float_never_unbound (v : pyval) :
  py_float v <> Raise UnboundLocalError.
Proof.
  destruct v; simpl; try discriminate.
  - unfold float_of_int.
    destruct (binary_normalize prec emax n 0 false); discriminate.
  - destruct (float_of_string s); discriminate.
Qed.

Lemma floats_of_never_unbound (l : list pyval) :
  floats_of l <> Raise UnboundLocalError.
Proof.
  unfold floats_of. induction l as [| a l IH]; simpl.
  - discriminate.
  - pose proof (py_float_never_unbound a) as Ha.
    destruct (py_float a) as [f | e]; simpl.
    + destruct (mapM _ l) as [fs | e]; simpl; [discriminate | exact IH].
    + intros H. apply Ha. inversion H. reflexivity.
Qed.

Lemma Point_init_never_unbound (args : list pyval) :
  Point.__init__ args <> Raise UnboundLocalError.
Proof.
  assert (Hf : forall l, (coords <- floats_of l ;;
                          Ok {| Point._coordinates := coords |})
                         <> Raise UnboundLocalError).
  { intros l. pose proof (floats_of_never_unbound l) as Hl.
    destruct (floats_of l); simpl; [discriminate |].
    intros H. apply Hl. inversion H. reflexivity. }
  unfold Point.__init__.
  destruct args as [| a [| b args]].
  - discriminate.
  - destruct a; simpl; try discriminate.
    + match goal with
      | |- (if ?b then _ else _) <> _ => destruct b
      end; [apply Hf | discriminate].
    + match goal with
      | |- (if ?b then _ else _) <> _ => destruct b
      end; [apply Hf | discriminate].
    + destruct (String.eqb ty "Point"); [| discriminate].
      destruct a; simpl; discriminate.
  - match goal with
    | |- (if ?b then _ else _) <> _ => destruct b
    end; [apply Hf | discriminate].
Qed.

Lemma lengths_agree_some (k : nat) (ps : list Point.t) :
  lengths_agree (Some k) ps = forallb (fun p => Nat.eqb (point_dim p) k) ps.
Proof.
  revert k. induction ps as [| p ps IH]; intros k; simpl.
  - reflexivity.
  - destruct (Nat.eqb (point_dim p) k) eqn:E; simpl.
    + apply Nat.eqb_eq in E. rewrite E. apply IH.
    + reflexivity.
Qed.

(** The loop, once every item is a point: the lengths are checked one
    against the one before, from the second point on. *)
Lemma init_loop_spec (cs : list pyval) :
  forall (acc : list pyval) (l2 : option nat) (ps : list Point.t),
    points_of_raw cs = Ok ps ->
    (acc <> [] -> l2 <> None) ->
    LineString.init_loop cs acc l2
    = if lengths_agree (match acc with [] => None | _ => l2 end) ps
      then Ok (acc ++ map Point.coords ps)
      else Raise ValueError.
Proof.
  unfold points_of_raw.
  induction cs as [| c cs IH]; intros acc l2 ps Hps Hinv; simpl in *.
  - inversion Hps. simpl. rewrite app_nil_r. reflexivity.
  - bind_inv Hps as p Hp. bind_inv Hps as ps' Hps'.
    inversion Hps; subst. clear Hps.
    rewrite Hp. simpl.
    destruct acc as [| a0 acc]; simpl.
    + rewrite (IH [Point.coords p] (Some (List.length (Point._coordinates p)))
                 ps' Hps') by discriminate.
      reflexivity.
    + destruct l2 as [k |]; [| exfalso; apply Hinv; [discriminate | reflexivity]].
      unfold point_dim.
      destruct (Nat.eqb (List.length (Point._coordinates p)) k); simpl.
      * rewrite (IH _ (Some (List.length (Point._coordinates p))) ps' Hps')
          by discriminate.
        simpl. rewrite <- app_assoc. reflexivity.
      * reflexivity.
Qed.

Lemma init_loop_ok (cs : list pyval) :
  forall (acc : list pyval) (l2 : option nat) (r : list pyval),
    LineString.init_loop cs acc l2 = Ok r ->
    exists ps, points_of_raw cs = Ok ps.
Proof.
  unfold points_of_raw.
  induction cs as [| c cs IH]; intros acc l2 r H; simpl in *.
  - exists []. reflexivity.
  - bind_inv H as p Hp. bind_inv H as u Hu.
    destruct (IH _ _ _ H) as [ps Hps].
    exists (p :: ps). rewrite Hp. simpl. rewrite Hps. reflexivity.
Qed.

Lemma init_loop_never_unbound (cs : list pyval) :
  forall (acc : list pyval) (l2 : option nat),
    (acc <> [] -> l2 <> None) ->
    LineString.init_loop cs acc l2 <> Raise UnboundLocalError.
Proof.
  induction cs as [| c cs IH]; intros acc l2 Hinv; simpl.
  - discriminate.
  - pose proof (Point_init_never_unbound [c]) as Hp.
    destruct (Point.__init__ [c]) as [p | e]; simpl.
    + destruct acc as [| a0 acc]; simpl.
      * apply IH. discriminate.
      * destruct l2 as [k |];
          [| exfalso; apply Hinv; [discriminate | reflexivity]].
        destruct (Nat.eqb _ k); simpl; [| discriminate].
        apply IH. discriminate.
    + intros H. apply Hp. inversion H. reflexivity.
Qed.

Lemma forallb_on_map {A B : Type} (f : A -> B) (g : B -> bool) (l : list A) :
  forallb g (map f l) = forallb (fun a => g (f a)) l.
Proof.
  induction l as [| a l IH]; simpl; [reflexivity | rewrite IH; reflexivity].
Qed.

Lemma same_dimension_coords (ps : list Point.t) :
  same_dimension (map Point.coords ps) = lengths_agree None ps.
Proof.
  destruct ps as [| p ps]; simpl.
  - reflexivity.
  - rewrite lengths_agree_some. rewrite forallb_on_map. reflexivity.
Qed.

Lemma lengths_agree_mixed (ps : list Point.t) (p q : Point.t) :
  In p ps -> In q ps -> point_dim p <> point_dim q ->
  lengths_agree None ps = false.
Proof.
  intros Hp Hq Hne.
  destruct ps as [| p0 ps]; [destruct Hp |].
  simpl. rewrite lengths_agree_some.
  destruct (forallb _ ps) eqn:E; [| reflexivity].
  exfalso. rewrite forallb_forall in E.
  assert (Hall : forall r, In r (p0 :: ps) -> point_dim r = point_dim p0).
  { intros r [<- | Hr]; [reflexivity |].
    apply Nat.eqb_eq. apply E. exact Hr. }
  apply Hne. rewrite (Hall p Hp), (Hall q Hq). reflexivity.
Qed.

Lemma LineString_init_raw (l : list pyval) :
  LineString.__init__ (PyList l)
  = (coords <- LineString.init_loop l [] None ;;
     Ok {| LineString._coordinates := PyList coords |}) /\
  LineString.__init__ (PyTuple l) = LineString.__init__ (PyList l).
Proof. split; reflexivity. Qed.

Lemma init_loop_from_start (cs : list pyval) (ps : list Point.t) :
  points_of_raw cs = Ok ps ->
  LineString.init_loop cs [] None
  = if lengths_agree None ps
    then Ok (map Point.coords ps)
    else Raise ValueError.
Proof.
  intros Hps.
  rewrite (init_loop_spec cs [] None ps Hps) by (intros H; contradiction).
  reflexivity.
Qed.

(** What a LineString built from a raw sequence stores. *)
Lemma LineString_raw_stored (cs : list pyval) (self : LineString.t) :
  LineString.__init__ (PyList cs) = Ok self \/
  LineString.__init__ (PyTuple cs) = Ok self ->
  exists ps,
    points_of_raw cs = Ok ps /\
    LineString._coordinates self = PyList (map Point.coords ps) /\
    same_dimension (map Point.coords ps) = true.
Proof.
  destruct (LineString_init_raw cs) as [Hlist Htuple].
  intros H.
  assert (H' : LineString.__init__ (PyList cs) = Ok self)
    by (destruct H as [H | H]; [exact H | rewrite <- Htuple; exact H]).
  rewrite Hlist in H'. bind_inv H' as coords Hc.
  destruct (init_loop_ok _ _ _ _ Hc) as [ps Hps].
  exists ps. rewrite (init_loop_from_start cs ps Hps) in Hc.
  destruct (lengths_agree None ps) eqn:E; [| discriminate Hc].
  inversion Hc; subst. inversion H'; subst. simpl.
  rewrite same_dimension_coords. auto.
Qed.

(** C3: a raw sequence whose items are all points and that holds a point
    of two and a point of three coordinates raises [ValueError]; a
    LineString built from a raw sequence stores coordinates of one common
    length; the loop compares each point with the one before it from the
    second item on, and never reads the length of a previous point that
    does not exist. *)
Theorem LineString_one_dimension (cs : list pyval) :
  (forall (ps : list Point.t) (p q : Point.t),
      points_of_raw cs = Ok ps ->
      In p ps -> In q ps -> point_dim p = 2%nat -> point_dim q = 3%nat ->
      LineString.__init__ (PyList cs) = Raise ValueError /\
      LineString.__init__ (PyTuple cs) = Raise ValueError) /\
  (forall self : LineString.t,
      LineString.__init__ (PyList cs) = Ok self \/
      LineString.__init__ (PyTuple cs) = Ok self ->
      exists ps,
        points_of_raw cs = Ok ps /\
        LineString._coordinates self = PyList (map Point.coords ps) /\
        same_dimension (map Point.coords ps) = true) /\
  (forall ps : list Point.t,
      points_of_raw cs = Ok ps ->
      LineString.init_loop cs [] None
      = if lengths_agree None ps
        then Ok (map Point.coords ps)
        else Raise ValueError) /\
  LineString.__init__ (PyList cs) <> Raise UnboundLocalError.
Proof.
  destruct (LineString_init_raw cs) as [Hlist Htuple].
  split; [| split; [| split]].
  - intros ps p q Hps Hp Hq Hdp Hdq.
    rewrite Htuple, Hlist, (init_loop_from_start cs ps Hps).
    rewrite (lengths_agree_mixed ps p q Hp Hq) by lia.
    split; reflexivity.
  - apply LineString_raw_stored.
  - apply init_loop_from_start.
  - rewrite Hlist.
    pose proof (init_loop_never_unbound cs [] None) as Hn.
    destruct (LineString.init_loop cs [] None); simpl; [discriminate |].
    intros H. apply Hn; [intros H0; contradiction |].
    inversion H. reflexivity.
Qed.

Lemma LineString_one_dimension_witness :
  LineString.__init__
    (PyList [PyList [PyInt 0; PyInt 0]; PyList [PyInt 1; PyInt 0; PyInt 5]])
  = Raise ValueError.
Proof.
  destruct (LineString_one_dimension
              [PyList [PyInt 0; PyInt 0]; PyList [PyInt 1; PyInt 0; PyInt 5]])
    as [H _].
  destruct (H [{| Point._coordinates :=
                   [PyFloat (float_lit "0.0"); PyFloat (float_lit "0.0")] |};
               {| Point._coordinates :=
                   [PyFloat (float_lit "1.0"); PyFloat (float_lit "0.0");
                    PyFloat (float_lit "5.0")] |}]
              {| Point._coordinates :=
                  [PyFloat (float_lit "0.0"); PyFloat (float_lit "0.0")] |}
              {| Point._coordinates :=
                  [PyFloat (float_lit "1.0"); PyFloat (float_lit "0.0");
                   PyFloat (float_lit "5.0")] |}) as [Hl _].
  - vm_compute. reflexivity.
  - left. reflexivity.
  - right. left. reflexivity.
  - reflexivity.
  - reflexivity.
  - exact Hl.
Defined.

(** ** Equality of values *)

Lemma spec_float_eqb_refl (f : spec_float) : spec_float_eqb f f = true.
Proof.
  destruct f as [s | s | | s m e]; simpl.
  - apply Bool.eqb_reflx.
  - apply Bool.eqb_reflx.
  - reflexivity.
  - rewrite Bool.eqb_reflx, Pos.eqb_refl, Z.eqb_refl. reflexivity.
Qed.

Lemma list_eqb_refl {A : Type} (eqb : A -> A -> bool) (l : list A) :
  (forall a, In a l -> eqb a a = true) -> list_eqb eqb l l = true.
Proof.
  induction l as [| a l IH]; intros H; simpl.
  - reflexivity.
  - rewrite (H a (or_introl eq_refl)). simpl.
    apply IH. intros b Hb. apply H. right. exact Hb.
Qed.

Lemma list_all_In {P : pyval -> Prop} (l : list pyval) :
  list_all pyval P l -> forall a, In a l -> P a.
Proof.
  intros H. induction H as [| a Ha l Hl IH]; intros b Hb.
  - destruct Hb.
  - destruct Hb as [<- | Hb]; [exact Ha | apply IH; exact Hb].
Qed.

Lemma py_is_refl (v : pyval) : py_is v v = true.
Proof.
  induction v as [| n | f | s | items IH | items IH | ty c IH | | id];
    simpl.
  - reflexivity.
  - apply Z.eqb_refl.
  - apply spec_float_eqb_refl.
  - apply String.eqb_refl.
  - apply list_eqb_refl. apply (list_all_In items IH).
  - apply list_eqb_refl. apply (list_all_In items IH).
  - rewrite String.eqb_refl, IH. reflexivity.
  - reflexivity.
  - apply Pos.eqb_refl.
Qed.

Lemma item_eq_refl (v : pyval) : item_eq v v = true.
Proof. unfold item_eq. rewrite py_is_refl. reflexivity. Qed.

Lemma SFeqb_refl (f : spec_float) : is_nan f = false -> SFeqb f f = true.
Proof.
  unfold SFeqb. destruct f as [s | s | | s m e]; simpl; intros H.
  - reflexivity.
  - destruct s; reflexivity.
  - discriminate H.
  - destruct s; rewrite Z.compare_refl, Pos.compare_cont_refl; reflexivity.
Qed.

(** [v == v] holds of every value but a NaN float taken by itself. *)
Lemma pyeq_refl (v : pyval) : bare_nan v = false -> pyeq v v = true.
Proof.
  destruct v as [| n | f | s | items | items | ty c | | id]; simpl; intros H.
  - reflexivity.
  - apply Z.eqb_refl.
  - apply SFeqb_refl. exact H.
  - apply String.eqb_refl.
  - apply list_eqb_refl. intros a _. rewrite py_is_refl. reflexivity.
  - apply list_eqb_refl. intros a _. rewrite py_is_refl. reflexivity.
  - rewrite String.eqb_refl, py_is_refl. reflexivity.
  - reflexivity.
  - apply Pos.eqb_refl.
Qed.

(** ** Indexing *)

Lemma index_items_first (l : list pyval) (a b : pyval) :
  index_items l 0 = Ok a -> index_items (l ++ [b]) 0 = Ok a.
Proof.
  destruct l as [| x l]; intros H.
  - discriminate H.
  - unfold index_items in *. simpl in *. exact H.
Qed.

Lemma index_items_last (l : list pyval) (b : pyval) :
  index_items (l ++ [b]) (-1) = Ok b.
Proof.
  unfold index_items. rewrite length_app. simpl List.length.
  replace (Z.ltb (-1) 0) with true by reflexivity.
  replace (-1 + Z.of_nat (List.length l + 1))%Z
    with (Z.of_nat (List.length l)) by lia.
  replace (Z.leb 0 (Z.of_nat (List.length l))) with true
    by (symmetry; apply Z.leb_le; lia).
  replace (Z.ltb (Z.of_nat (List.length l)) (Z.of_nat (List.length l + 1)))
    with true by (symmetry; apply Z.ltb_lt; lia).
  simpl. rewrite Nat2Z.id.
  rewrite nth_error_app2 by lia. rewrite Nat.sub_diag. reflexivity.
Qed.

Lemma index_items_In (l : list pyval) (i : Z) (a : pyval) :
  index_items l i = Ok a -> In a l.
Proof.
  unfold index_items. destruct (_ && _)%bool; [| discriminate].
  destruct (nth_error l _) eqn:E; [| discriminate].
  intros H. inversion H; subst. apply (nth_error_In _ _ E).
Qed.

(** ** LinearRing: closing *)

(** What [close] does to an object it accepts. *)
Lemma close_spec (self ring : LineString.t) :
  LinearRing.close self = Ok ring ->
  exists first last,
    py_getitem (LineString._coordinates self) 0 = Ok first /\
    py_getitem (LineString._coordinates self) (-1) = Ok last /\
    (pyeq first last = true -> ring = self) /\
    (pyeq first last = false ->
     exists l, LineString._coordinates self = PyList l /\
               LineString._coordinates ring = PyList (l ++ [first])).
Proof.
  unfold LinearRing.close. intros H.
  bind_inv H as first Hfirst. bind_inv H as last Hlast.
  exists first, last. split; [exact Hfirst | split; [exact Hlast |]].
  unfold pyne in H. destruct (pyeq first last); simpl in H.
  - inversion H; subst. split; [reflexivity | discriminate].
  - split; [discriminate |]. intros _.
    rewrite Hfirst in H. simpl in H. bind_inv H as c' Hc'.
    inversion H; subst. simpl.
    destruct (LineString._coordinates self); try discriminate Hc'.
    simpl in Hc'. inversion Hc'; subst.
    exists items. split; reflexivity.
Qed.

Lemma close_closed (self ring : LineString.t) (first : pyval) :
  LinearRing.close self = Ok ring ->
  py_getitem (LineString._coordinates self) 0 = Ok first ->
  bare_nan first = false ->
  ring_closed ring = true.
Proof.
  intros H Hfirst Hnan.
  destruct (close_spec self ring H) as [f [last [Hf [Hl [Heq Hne]]]]].
  rewrite Hfirst in Hf. inversion Hf; subst f.
  destruct (pyeq first last) eqn:E.
  - rewrite (Heq eq_refl). unfold ring_closed. rewrite Hfirst, Hl. exact E.
  - destruct (Hne eq_refl) as [l [Hself Hring]].
    unfold ring_closed. rewrite Hring. simpl.
    rewrite Hself in Hfirst. simpl in Hfirst.
    rewrite (index_items_first l first first Hfirst), index_items_last.
    apply pyeq_refl. exact Hnan.
Qed.

Lemma close_ends_meet (self ring : LineString.t) :
  LinearRing.close self = Ok ring -> ring_ends_meet ring = true.
Proof.
  intros H.
  destruct (close_spec self ring H) as [first [last [Hf [Hl [Heq Hne]]]]].
  unfold ring_ends_meet, item_eq.
  destruct (pyeq first last) eqn:E.
  - rewrite (Heq eq_refl), Hf, Hl, E. apply orb_true_r.
  - destruct (Hne eq_refl) as [l [Hself Hring]].
    rewrite Hring. simpl. rewrite Hself in Hf. simpl in Hf.
    rewrite (index_items_first l first first Hf), index_items_last.
    rewrite py_is_refl. reflexivity.
Qed.

(** The first coordinate of a LineString built from a raw sequence is a
    tuple. *)
Lemma raw_first_is_tuple (r : pyval) (base : LineString.t) (first : pyval) :
  is_list_or_tuple r = true ->
  LineString.__init__ r = Ok base ->
  py_getitem (LineString._coordinates base) 0 = Ok first ->
  bare_nan first = false.
Proof.
  intros Hr Hbase Hfirst.
  assert (H : exists cs, LineString.__init__ (PyList cs) = Ok base \/
                         LineString.__init__ (PyTuple cs) = Ok base).
  { destruct r; try discriminate Hr; exists items; auto. }
  destruct H as [cs H].
  destruct (LineString_raw_stored cs base H) as [ps [_ [Hc _]]].
  rewrite Hc in Hfirst. simpl in Hfirst.
  apply index_items_In in Hfirst. apply in_map_iff in Hfirst.
  destruct Hfirst as [p [<- _]]. reflexivity.
Qed.

Lemma set_coords_raw (self self' : LineString.t) (coordinates : pyval) :
  LineString.set_coords self coordinates = (self', None) ->
  is_list_or_tuple coordinates = true /\
  LineString.__init__ coordinates = Ok self'.
Proof.
  unfold LineString.set_coords.
  destruct coordinates; try (intros H; discriminate H).
  - destruct (LineString_init_raw items) as [Hl _]. rewrite Hl.
    destruct (LineString.init_loop items [] None); intros H;
      inversion H; subst; split; reflexivity.
  - destruct (LineString_init_raw items) as [Hl Ht]. rewrite Ht, Hl.
    destruct (LineString.init_loop items [] None); intros H;
      inversion H; subst; split; reflexivity.
Qed.



(** ** LinearRing: building a ring again from its coordinates *)

Lemma floats_of_floats (l : list pyval) :
  forallb is_float l = true -> floats_of l = Ok l.
Proof.
  unfold floats_of. induction l as [| a l IH]; simpl; intros H.
  - reflexivity.
  - apply andb_true_iff in H. destruct H as [Ha Hl].
    destruct a; try discriminate Ha. simpl.
    rewrite (IH Hl). reflexivity.
Qed.

Lemma floats_of_inv (l coords : list pyval) :
  floats_of l = Ok coords ->
  forallb is_float coords = true /\ List.length coords = List.length l.
Proof.
  unfold floats_of. revert coords.
  induction l as [| a l IH]; simpl; intros coords H.
  - inversion H. split; reflexivity.
  - bind_inv H as b Hb. bind_inv H as bs Hbs. inversion H; subst.
    bind_inv Hb as f Hf. inversion Hb; subst.
    destruct (IH _ Hbs) as [H1 H2]. simpl. rewrite H1, H2. split; reflexivity.
Qed.

(** [Point] hands a Coordinate back as it is. *)
Lemma Point_init_coordinate (c : pyval) :
  is_coordinate c = true ->
  exists p, Point.__init__ [c] = Ok p /\ Point.coords p = c.
Proof.
  destruct c; try discriminate. unfold is_coordinate. intros H.
  apply andb_true_iff in H. destruct H as [Hlen Hf].
  exists {| Point._coordinates := items |}.
  unfold Point.__init__, has_geo_interface.
  rewrite Hlen, (floats_of_floats items Hf). split; reflexivity.
Qed.

(** [Point] makes a Coordinate of a raw list or tuple it accepts. *)
Lemma Point_init_raw_coordinate (c : pyval) (p : Point.t) :
  is_list_or_tuple c = true ->
  Point.__init__ [c] = Ok p ->
  is_coordinate (Point.coords p) = true.
Proof.
  intros Hc. unfold Point.__init__.
  destruct c; try discriminate Hc; unfold has_geo_interface;
    (destruct (Nat.leb 2 (List.length items)
               && Nat.leb (List.length items) 3)%bool eqn:Hlen;
     [| discriminate]);
    intros H; bind_inv H as coords Hcoords; inversion H; subst;
    destruct (floats_of_inv _ _ Hcoords) as [Hf Hl];
    unfold Point.coords, is_coordinate; cbn [Point._coordinates];
    rewrite Hl, Hlen, Hf; reflexivity.
Qed.

Lemma points_of_coordinates (l : list pyval) :
  forallb is_coordinate l = true ->
  exists ps, points_of_raw l = Ok ps /\ map Point.coords ps = l.
Proof.
  unfold points_of_raw. induction l as [| c l IH]; simpl; intros H.
  - exists []. split; reflexivity.
  - apply andb_true_iff in H. destruct H as [Hc Hl].
    destruct (Point_init_coordinate c Hc) as [p [Hp Hpc]].
    destruct (IH Hl) as [ps [Hps Hmap]].
    exists (p :: ps). rewrite Hp. simpl. rewrite Hps. simpl.
    rewrite Hpc, Hmap. split; reflexivity.
Qed.

Lemma points_of_raw_coordinates (cs : list pyval) (ps : list Point.t) :
  forallb is_list_or_tuple cs = true ->
  points_of_raw cs = Ok ps ->
  forallb is_coordinate (map Point.coords ps) = true.
Proof.
  unfold points_of_raw. revert ps.
  induction cs as [| c cs IH]; simpl; intros ps Hcs H.
  - inversion H. reflexivity.
  - apply andb_true_iff in Hcs. destruct Hcs as [Hc Hcs].
    bind_inv H as p Hp. bind_inv H as ps' Hps'. inversion H; subst.
    cbn [map forallb]. rewrite (Point_init_raw_coordinate c p Hc Hp).
    cbn [andb]. apply IH; assumption.
Qed.

(** A sequence of Coordinates of one length goes through [LineString]
    unchanged. *)
Lemma LineString_init_normal (l : list pyval) :
  forallb is_coordinate l = true ->
  same_dimension l = true ->
  LineString.__init__ (PyTuple l)
  = Ok {| LineString._coordinates := PyList l |}.
Proof.
  intros Hc Hd.
  destruct (points_of_coordinates l Hc) as [ps [Hps Hmap]].
  destruct (LineString_init_raw l) as [Hl Ht]. rewrite Ht, Hl.
  rewrite (init_loop_from_start l ps Hps).
  rewrite <- same_dimension_coords, Hmap, Hd. reflexivity.
Qed.

Lemma index_items_head (l : list pyval) (a : pyval) :
  index_items l 0 = Ok a -> exists l', l = a :: l'.
Proof.
  destruct l as [| x l]; intros H.
  - discriminate H.
  - unfold index_items in H. simpl in H. inversion H; subst.
    exists l. reflexivity.
Qed.

(** Closing keeps a normalised sequence normalised. *)
Lemma close_normalised (base ring : LineString.t) :
  LinearRing.close base = Ok ring ->
  normalised base = true -> normalised ring = true.
Proof.
  intros H Hn.
  destruct (close_spec base ring H) as [first [last [Hf [_ [Heq Hne]]]]].
  destruct (pyeq first last).
  - rewrite (Heq eq_refl). exact Hn.
  - destruct (Hne eq_refl) as [l [Hbase Hring]].
    unfold normalised in *. rewrite Hring. rewrite Hbase in Hn, Hf.
    simpl in Hf. destruct (index_items_head l first Hf) as [l' ->].
    apply andb_true_iff in Hn. destruct Hn as [Hc Hd].
    simpl in *. apply andb_true_iff in Hc. destruct Hc as [Hc1 Hc2].
    rewrite Hc1. simpl. rewrite !forallb_app. rewrite Hc2, Hd. simpl.
    rewrite Hc1, Nat.eqb_refl. reflexivity.
Qed.

(** A ring built from raw points is normalised. *)
Lemma raw_points_normalised (r : pyval) (ring : LineString.t) :
  raw_points r = true ->
  LinearRing.__init__ r = Ok ring ->
  normalised ring = true.
Proof.
  intros Hr H. unfold LinearRing.__init__ in H.
  bind_inv H as base Hbase.
  apply (close_normalised base ring H).
  assert (Hcs : exists cs, forallb is_list_or_tuple cs = true /\
                  (LineString.__init__ (PyList cs) = Ok base \/
                   LineString.__init__ (PyTuple cs) = Ok base)).
  { destruct r; try discriminate Hr; exists items; auto. }
  destruct Hcs as [cs [Hall Hinit]].
  destruct (LineString_raw_stored cs base Hinit) as [ps [Hps [Hc Hd]]].
  unfold normalised. rewrite Hc.
  rewrite (points_of_raw_coordinates cs ps Hall Hps), Hd. reflexivity.
Qed.

(** A ring [LinearRing] has built is closed as soon as it is
    normalised. *)
Lemma normalised_ring_closed (r : pyval) (ring : LineString.t) :
  LinearRing.__init__ r = Ok ring ->
  normalised ring = true ->
  ring_closed ring = true.
Proof.
  intros H Hn. unfold LinearRing.__init__ in H.
  bind_inv H as base Hbase.
  destruct (close_spec base ring H) as [first [last [Hf [Hl [Heq Hne]]]]].
  apply (close_closed base ring first H Hf).
  assert (Hin : exists l, (LineString._coordinates ring = PyList l \/
                           LineString._coordinates ring = PyTuple l) /\
                          In first l).
  { destruct (pyeq first last).
    - rewrite (Heq eq_refl) in *. unfold normalised in Hn.
      destruct (LineString._coordinates base); try discriminate Hn;
        exists items; (split; [auto | apply (index_items_In _ _ _ Hf)]).
    - destruct (Hne eq_refl) as [l [_ Hring]].
      exists (l ++ [first]). split; [auto |].
      apply in_or_app. right. left. reflexivity. }
  destruct Hin as [l [Hl' Hin]].
  assert (Hc : forallb is_coordinate l = true).
  { unfold normalised in Hn.
    destruct Hl' as [Hl' | Hl']; rewrite Hl' in Hn;
      apply andb_true_iff in Hn; destruct Hn as [Hn _]; exact Hn. }
  rewrite forallb_forall in Hc. specialize (Hc first Hin).
  destruct first; try discriminate Hc; reflexivity.
Qed.

(** C8, as amended: when [LinearRing(r)] has built a ring from a raw
    sequence of raw points, or a ring whose stored sequence is
    normalised, building a ring from the coordinates of that ring yields
    the same coordinates again. *)
Theorem LinearRing_idempotent (r : pyval) (ring : LineString.t) :
  LinearRing.__init__ r = Ok ring ->
  raw_points r = true \/ normalised ring = true ->
  exists c ring' c',
    LinearRing.coords ring = Ok c /\
    LinearRing.__init__ c = Ok ring' /\
    LinearRing.coords ring' = Ok c' /\
    c' = c /\ pyeq c' c = true.
Proof.
  intros H Hcase.
  assert (Hn : normalised ring = true)
    by (destruct Hcase as [Hr | Hn];
        [apply (raw_points_normalised r ring Hr H) | exact Hn]).
  pose proof (normalised_ring_closed r ring H Hn) as Hclosed.
  assert (Hl : exists l, (LineString._coordinates ring = PyList l \/
                          LineString._coordinates ring = PyTuple l) /\
                         forallb is_coordinate l = true /\
                         same_dimension l = true).
  { unfold normalised in Hn.
    destruct (LineString._coordinates ring); try discriminate Hn;
      apply andb_true_iff in Hn; exists items; auto. }
  destruct Hl as [l [Hring [Hc Hd]]].
  assert (Hidx : match index_items l 0, index_items l (-1) with
                 | Ok first, Ok last => pyeq first last
                 | _, _ => false
                 end = true).
  { unfold ring_closed in Hclosed.
    destruct Hring as [Hring | Hring]; rewrite Hring in Hclosed;
      exact Hclosed. }
  assert (Hcoords : forall self,
             LineString._coordinates self = PyList l \/
             LineString._coordinates self = PyTuple l ->
             LinearRing.coords self = Ok (PyTuple l)).
  { intros self Hself. unfold LinearRing.coords.
    destruct Hself as [-> | ->]; simpl;
      destruct (index_items l 0) as [first |]; try discriminate Hidx;
      destruct (index_items l (-1)) as [last |]; try discriminate Hidx;
      simpl; rewrite Hidx; reflexivity. }
  exists (PyTuple l), {| LineString._coordinates := PyList l |}, (PyTuple l).
  split; [apply Hcoords; exact Hring |].
  split; [| split; [apply Hcoords; left; reflexivity |
                    split; [reflexivity | apply pyeq_refl; reflexivity]]].
  unfold LinearRing.__init__. rewrite (LineString_init_normal l Hc Hd).
  simpl. unfold LinearRing.close. simpl. unfold pyne.
  destruct (index_items l 0) as [first |]; try discriminate Hidx.
  destruct (index_items l (-1)) as [last |]; try discriminate Hidx.
  simpl. rewrite Hidx. reflexivity.
Qed.

Lemma LinearRing_idempotent_witness :
  exists ring c ring',
    LinearRing.__init__
      (PyList [PyList [PyInt 0; PyInt 0]; PyList [PyInt 1; PyInt 0];
               PyList [PyInt 1; PyInt 1]]) = Ok ring /\
    LinearRing.coords ring = Ok c /\
    LinearRing.__init__ c = Ok ring' /\
    LinearRing.coords ring' = Ok c.
Proof.
  eexists. 
  match goal with
  | |- exists c ring', ?init = Ok ?ring /\ _ =>
      assert (Hinit : init = Ok ring) by (vm_compute; reflexivity);
      destruct (LinearRing_idempotent _ ring Hinit (or_introl eq_refl))
        as [c [ring' [c' [H1 [H2 [H3 [H4 _]]]]]]]
  end.
  exists c, ring'. subst c'. repeat split; assumption.
Defined.

(** C8, as stated, fails on mapping objects, whose coordinates the ring
    keeps as they are.  When they are lists, a ring built from the ring's
    coordinates holds tuples of floats, which no list equals; when they
    mix a point of two and a point of three numbers, no ring can be built
    from the ring's coordinates at all. *)
Lemma LinearRing_not_idempotent_on_mapping :
  (exists ring c ring' c',
      LinearRing.__init__ geojson_line = Ok ring /\
      LinearRing.coords ring = Ok c /\
      LinearRing.__init__ c = Ok ring' /\
      LinearRing.coords ring' = Ok c' /\
      pyeq c' c = false /\ c' <> c) /\
  (exists ring c,
      LinearRing.__init__ mixed_line = Ok ring /\
      LinearRing.coords ring = Ok c /\
      LinearRing.__init__ c = Raise ValueError).
Proof.
  split.
  - eexists. eexists. eexists. eexists.
    split; [vm_compute; reflexivity |].
    split; [vm_compute; reflexivity |].
    split; [vm_compute; reflexivity |].
    split; [vm_compute; reflexivity |].
    split; [vm_compute; reflexivity | discriminate].
  - eexists. eexists.
    split; [vm_compute; reflexivity |].
    split; vm_compute; reflexivity.
Qed.

(** ** MultiPoint.unique *)

Lemma coordinate_hashable (c : pyval) :
  is_coordinate c = true -> hashable c = true.
Proof.
  destruct c; try discriminate. unfold is_coordinate. intros H.
  apply andb_true_iff in H. destruct H as [_ Hf]. simpl.
  rewrite forallb_forall in *. intros x Hx. specialize (Hf x Hx).
  destruct x; try discriminate Hf. reflexivity.
Qed.

(** The last loop of [unique] makes one point of each Coordinate. *)
Lemma rebuild_coordinates (cs : list pyval) :
  forall acc : list Point.t,
    forallb is_coordinate cs = true ->
    exists ps,
      MultiPoint.rebuild cs acc = (acc ++ ps, None) /\
      map Point.coords ps = cs.
Proof.
  induction cs as [| c cs IH]; intros acc H; simpl in *.
  - exists []. rewrite app_nil_r. split; reflexivity.
  - apply andb_true_iff in H. destruct H as [Hc Hcs].
    destruct (Point_init_coordinate c Hc) as [p [Hp Hpc]].
    rewrite Hp.
    destruct (IH (acc ++ [p]) Hcs) as [ps [Hps Hmap]].
    exists (p :: ps). rewrite Hps, <- app_assoc. simpl.
    rewrite Hpc, Hmap. split; reflexivity.
Qed.

Lemma distinct_items_sound (l : list pyval) (c : pyval) :
  In c (distinct_items l) -> In c l.
Proof.
  induction l as [| a l IH]; simpl; intros H.
  - exact H.
  - destruct (existsb (item_eq a) (distinct_items l)).
    + right. apply IH. exact H.
    + destruct H as [H | H]; [left; exact H | right; apply IH; exact H].
Qed.

Lemma distinct_items_complete (l : list pyval) (c : pyval) :
  In c l -> exists c', In c' (distinct_items l) /\ item_eq c c' = true.
Proof.
  induction l as [| a l IH]; simpl; intros H.
  - destruct H.
  - destruct (existsb (item_eq a) (distinct_items l)) eqn:E.
    + destruct H as [<- | H]; [| apply IH; exact H].
      apply existsb_exists in E. exact E.
    + destruct H as [<- | H].
      * exists a. split; [left; reflexivity | apply item_eq_refl].
      * destruct (IH H) as [c' [Hin Heq]].
        exists c'. split; [right; exact Hin | exact Heq].
Qed.

Lemma distinct_items_distinct (l : list pyval) :
  ForallOrdPairs (fun a b => item_eq a b = false) (distinct_items l).
Proof.
  induction l as [| a l IH]; simpl.
  - constructor.
  - destruct (existsb (item_eq a) (distinct_items l)) eqn:E.
    + exact IH.
    + constructor; [| exact IH].
      apply Forall_forall. intros x Hx.
      destruct (item_eq a x) eqn:Eax; [| reflexivity].
      assert (existsb (item_eq a) (distinct_items l) = true)
        by (apply existsb_exists; exists x; auto).
      congruence.
Qed.

Lemma distinct_NoDup (l : list pyval) :
  ForallOrdPairs (fun a b => item_eq a b = false) l -> NoDup l.
Proof.
  intros H. induction H as [| a l Ha Hl IH].
  - constructor.
  - constructor; [| exact IH].
    intros Hin. rewrite Forall_forall in Ha.
    specialize (Ha a Hin). rewrite item_eq_refl in Ha. discriminate Ha.
Qed.

Section UniqueSpec.

(** Any way of listing the set of hashable items: no two items listed
    are equal, every item listed is one of [l], and every item of [l] is
    equal to one listed. *)
Variable set_items : list pyval -> list pyval.

Hypothesis set_items_distinct :
  forall l, forallb hashable l = true ->
            ForallOrdPairs (fun a b => item_eq a b = false) (set_items l).

Hypothesis set_items_sound :
  forall l c, forallb hashable l = true -> In c (set_items l) -> In c l.

Hypothesis set_items_complete :
  forall l c, forallb hashable l = true -> In c l ->
              exists c', In c' (set_items l) /\ item_eq c c' = true.


End UniqueSpec.


(** * Further properties of the module *)

(** ** Point: accessors, errors, mapping and setter *)

Lemma coordinate_items (l : list pyval) :
  is_coordinate (PyTuple l) = true ->
  exists fx fy rest,
    l = PyFloat fx :: PyFloat fy :: rest /\
    (rest = [] \/ exists fz, rest = [PyFloat fz]).
Proof.
  unfold is_coordinate. intros H.
  apply andb_true_iff in H. destruct H as [Hlen Hf].
  apply andb_true_iff in Hlen. destruct Hlen as [H2 H3].
  destruct l as [| a [| b [| c [| d l]]]]; simpl in H2, H3;
    try discriminate.
  - simpl in Hf. destruct a; try discriminate Hf.
    destruct b; try discriminate Hf.
    exists f, f0, []. split; [reflexivity | left; reflexivity].
  - simpl in Hf. destruct a; try discriminate Hf.
    destruct b; try discriminate Hf. destruct c; try discriminate Hf.
    exists f, f0, [PyFloat f1]. split; [reflexivity |].
    right. exists f1. reflexivity.
Qed.

(** X1: a point built from a raw list or tuple holds two or three
    floats; [x] and [y] answer the first and the second; [z] answers the
    third when there is one and raises [ValueError] when there is
    none. *)
Theorem Point_accessors (c : pyval) (p : Point.t) :
  is_list_or_tuple c = true ->
  Point.__init__ [c] = Ok p ->
  exists fx fy rest,
    Point._coordinates p = PyFloat fx :: PyFloat fy :: rest /\
    Point.x p = Ok (PyFloat fx) /\
    Point.y p = Ok (PyFloat fy) /\
    ((rest = [] /\ Point.z p = Raise ValueError) \/
     (exists fz, rest = [PyFloat fz] /\ Point.z p = Ok (PyFloat fz))).
Proof.
  intros Hc Hp.
  pose proof (Point_init_raw_coordinate c p Hc Hp) as Hv.
  destruct (coordinate_items _ Hv) as [fx [fy [rest [Hl Hrest]]]].
  exists fx, fy, rest. unfold Point.x, Point.y, Point.z. rewrite Hl.
  split; [reflexivity |].
  destruct Hrest as [-> | [fz ->]].
  - split; [reflexivity | split; [reflexivity |]].
    left. split; reflexivity.
  - split; [reflexivity | split; [reflexivity |]].
    right. exists fz. split; reflexivity.
Qed.

Lemma Point_accessors_witness :
  exists p,
    Point.__init__ [PyList [PyStr "1.5"; PyInt 2]] = Ok p /\
    Point.x p = Ok (PyFloat (float_lit "1.5")) /\
    Point.y p = Ok (PyFloat (float_lit "2.0")) /\
    Point.z p = Raise ValueError.
Proof.
  eexists. split; [vm_compute; reflexivity |].
  match goal with
  | |- Point.x ?p = _ /\ _ =>
      destruct (Point_accessors (PyList [PyStr "1.5"; PyInt 2]) p eq_refl)
        as [fx [fy [rest [Hl [Hx [Hy Hz]]]]]]
  end.
  - vm_compute. reflexivity.
  - vm_compute in Hl. inversion Hl; subst.
    split; [exact Hx | split; [exact Hy |]].
    destruct Hz as [[_ Hz] | [fz [Hfz _]]]; [exact Hz | discriminate Hfz].
Defined.

Lemma float_of_int_raise (n : Z) (e : exn) :
  float_of_int n = Raise e -> e = OverflowError.
Proof.
  unfold float_of_int.
  destruct (binary_normalize prec emax n 0 false); intros H;
    inversion H; reflexivity.
Qed.

Lemma py_float_raise (v : pyval) (e : exn) :
  py_float v = Raise e ->
  (e = TypeError /\ is_float v = false) \/
  (e = ValueError /\ exists s, v = PyStr s /\ float_of_string s = None) \/
  (e = OverflowError /\ exists n, v = PyInt n /\
                                  float_of_int n = Raise OverflowError).
Proof.
  destruct v; simpl; intros H;
    try (left; inversion H; split; reflexivity).
  - right. right. pose proof (float_of_int_raise n e H) as He. subst e.
    split; [reflexivity |]. exists n. split; [reflexivity | exact H].
  - right. left. destruct (float_of_string s) eqn:E; [discriminate H |].
    inversion H. split; [reflexivity |]. exists s.
    split; [reflexivity | exact E].
Qed.

Lemma floats_of_raise (l : list pyval) (e : exn) :
  floats_of l = Raise e -> exists v, In v l /\ py_float v = Raise e.
Proof.
  unfold floats_of. induction l as [| a l IH]; simpl; intros H.
  - discriminate H.
  - destruct (py_float a) as [f |] eqn:Ea; simpl in H.
    + destruct (mapM _ l) as [fs |] eqn:El; simpl in H; [discriminate H |].
      inversion H; subst. destruct (IH eq_refl) as [v [Hv Hr]].
      exists v. split; [right; exact Hv | exact Hr].
    + inversion H; subst. exists a. split; [left; reflexivity | exact Ea].
Qed.

(** The numbers [Point] coerces: the positional values themselves, or
    the items of the one list or tuple passed. *)
Lemma Point_init_raise (args : list pyval) (e : exn) :
  Point.__init__ args = Raise e ->
  e = TypeError \/
  (e = ValueError /\ (args = [] \/ (3 < List.length args)%nat)) \/
  exists l v,
    (l = args \/ args = [PyList l] \/ args = [PyTuple l]) /\
    In v l /\ py_float v = Raise e.
Proof.
  assert (Hf : forall l (k : list pyval -> result Point.t),
             (forall c, exists p, k c = Ok p) ->
             bind (floats_of l) k = Raise e ->
             exists v, In v l /\ py_float v = Raise e).
  { intros l k Hk H. destruct (floats_of l) as [c |] eqn:E; simpl in H.
    - destruct (Hk c) as [p Hp]. rewrite Hp in H. discriminate H.
    - inversion H; subst. apply floats_of_raise. exact E. }
  assert (Hk : forall c : list pyval,
             exists p, Ok {| Point._coordinates := c |} = Ok p)
    by (intros c; eexists; reflexivity).
  unfold Point.__init__.
  destruct args as [| a [| b args]].
  - intros H. inversion H. right. left. split; [reflexivity | left; reflexivity].
  - destruct a; simpl; intros H;
      try (left; inversion H; reflexivity).
    + destruct (_ && _)%bool; [| left; inversion H; reflexivity].
      destruct (Hf _ _ Hk H) as [v [Hv Hr]].
      right. right. exists items, v. auto.
    + destruct (_ && _)%bool; [| left; inversion H; reflexivity].
      destruct (Hf _ _ Hk H) as [v [Hv Hr]].
      right. right. exists items, v. auto.
    + destruct (String.eqb ty "Point"); [| left; inversion H; reflexivity].
      destruct a; simpl in H; inversion H; left; reflexivity.
  - destruct (Nat.leb 2 (List.length (a :: b :: args))
              && Nat.leb (List.length (a :: b :: args)) 3)%bool eqn:E.
    + intros H. destruct (Hf _ _ Hk H) as [v [Hv Hr]].
      right. right. exists (a :: b :: args), v. auto.
    + intros H. inversion H. right. left. split; [reflexivity |].
      right. simpl in *. destruct args as [| d [| d' args]];
        simpl in E; try discriminate E. simpl. lia.
Qed.

(** X2: [Point] raises nothing but [TypeError], [ValueError] and
    [OverflowError]; a [ValueError] means no or more than three
    positional values, or a string among the numbers that [float] cannot
    read; an [OverflowError] means an integer among them beyond the
    range of a float.  A list or tuple of the wrong length is a
    [TypeError]. *)
Theorem Point_init_errors (args : list pyval) (e : exn) :
  Point.__init__ args = Raise e ->
  (e = TypeError \/ e = ValueError \/ e = OverflowError) /\
  (e = ValueError ->
   args = [] \/ (3 < List.length args)%nat \/
   exists l s, (l = args \/ args = [PyList l] \/ args = [PyTuple l]) /\
               In (PyStr s) l /\ float_of_string s = None) /\
  (e = OverflowError ->
   exists l n, (l = args \/ args = [PyList l] \/ args = [PyTuple l]) /\
               In (PyInt n) l /\ float_of_int n = Raise OverflowError).
Proof.
  intros H. destruct (Point_init_raise args e H) as
      [-> | [[-> Hn] | [l [v [Hl [Hv Hr]]]]]].
  - split; [auto |]. split; intros He; discriminate He.
  - split; [auto |]. split; intros He; [| discriminate He].
    destruct Hn; auto.
  - destruct (py_float_raise v e Hr) as
        [[-> _] | [[-> [s [-> Hs]]] | [-> [n [-> Hn]]]]].
    + split; [auto |]. split; intros He; discriminate He.
    + split; [auto |]. split; intros He; [| discriminate He].
      right. right. exists l, s. auto.
    + split; [auto |]. split; intros He; [discriminate He |].
      exists l, n. auto.
Qed.

Lemma Point_init_errors_witness :
  exists l s,
    (l = [PyList [PyInt 0; PyStr "north"]] \/
     [PyList [PyInt 0; PyStr "north"]] = [PyList l] \/
     [PyList [PyInt 0; PyStr "north"]] = [PyTuple l]) /\
    In (PyStr s) l /\ float_of_string s = None.
Proof.
  destruct (Point_init_errors [PyList [PyInt 0; PyStr "north"]] ValueError)
    as [_ [H _]].
  - vm_compute. reflexivity.
  - destruct (H eq_refl) as [H0 | [H0 | H0]].
    + discriminate H0.
    + simpl in H0. lia.
    + exact H0.
Defined.

(** X3: a point that holds at least one coordinate exposes the mapping
    [{'type': 'Point', 'coordinates': tuple(coordinates)}]; [Point]
    applied to an object with that mapping builds the same point again,
    and so does [as_shape] when the point holds a Coordinate. *)
Theorem Point_mapping_roundtrip (p : Point.t) :
  Point._coordinates p <> [] ->
  Point.__geo_interface__ p
  = Ok (Some ("Point", PyTuple (Point._coordinates p))) /\
  Point.__init__ [PyGeo "Point" (PyTuple (Point._coordinates p))] = Ok p /\
  (is_coordinate (Point.coords p) = true ->
   as_shape (PyGeo "Point" (PyTuple (Point._coordinates p)))
   = Ok (APoint p)).
Proof.
  destruct p as [l]. simpl. intros Hl.
  split; [| split].
  - unfold Point.__geo_interface__, _Feature.__geo_interface__. simpl.
    destruct l; [contradiction | reflexivity].
  - reflexivity.
  - intros Hc. unfold as_shape. simpl.
    destruct (Point_init_coordinate (PyTuple l) Hc) as [q [Hq Hqc]].
    rewrite Hq. simpl. destruct q as [l']. unfold Point.coords in Hqc.
    simpl in Hqc. inversion Hqc. reflexivity.
Qed.

Lemma Point_mapping_roundtrip_witness :
  as_shape (PyGeo "Point" (PyTuple [PyFloat (float_lit "1.0");
                                    PyFloat (float_lit "2.0")]))
  = Ok (APoint {| Point._coordinates := [PyFloat (float_lit "1.0");
                                         PyFloat (float_lit "2.0")] |}).
Proof.
  destruct (Point_mapping_roundtrip
              {| Point._coordinates := [PyFloat (float_lit "1.0");
                                        PyFloat (float_lit "2.0")] |})
    as [_ [_ H]].
  - discriminate.
  - apply H. reflexivity.
Defined.

(** X4: the setter of [Point.coords] accepts a value exactly when
    [Point] accepts it as a raw list or tuple, and then stores what
    [Point] would build; when it raises, the point is as it was before;
    a point that holds a Coordinate holds one after any call. *)
Theorem Point_set_coords_spec (self : Point.t) (coordinates : pyval) :
  (forall self',
      Point.set_coords self coordinates = (self', None) <->
      is_list_or_tuple coordinates = true /\
      Point.__init__ [coordinates] = Ok self') /\
  (forall self' e,
      Point.set_coords self coordinates = (self', Some e) -> self' = self) /\
  (is_coordinate (Point.coords self) = true ->
   is_coordinate (Point.coords (fst (Point.set_coords self coordinates)))
   = true).
Proof.
  assert (Hsucc : forall self',
             Point.set_coords self coordinates = (self', None) <->
             is_list_or_tuple coordinates = true /\
             Point.__init__ [coordinates] = Ok self').
  { intros self'. unfold Point.set_coords, Point.__init__.
    destruct coordinates; simpl;
      try (split; [intros H; discriminate H | intros [H _]; discriminate H]).
    - destruct (_ && _)%bool.
      + destruct (floats_of items); simpl; split; intros H.
        * inversion H. split; reflexivity.
        * destruct H as [_ H]. inversion H. reflexivity.
        * discriminate H.
        * destruct H as [_ H]. discriminate H.
      + split; [intros H; discriminate H | intros [_ H]; discriminate H].
    - destruct (_ && _)%bool.
      + destruct (floats_of items); simpl; split; intros H.
        * inversion H. split; reflexivity.
        * destruct H as [_ H]. inversion H. reflexivity.
        * discriminate H.
        * destruct H as [_ H]. discriminate H.
      + split; [intros H; discriminate H | intros [_ H]; discriminate H]. }
  assert (Hfail : forall self' e,
             Point.set_coords self coordinates = (self', Some e) ->
             self' = self).
  { intros self' e. unfold Point.set_coords.
    destruct coordinates; try (intros H; inversion H; reflexivity);
      (destruct (_ && _)%bool; [| intros H; inversion H; reflexivity]);
      destruct (floats_of items); intros H; inversion H; reflexivity. }
  split; [exact Hsucc | split; [exact Hfail |]].
  intros Hv.
  destruct (Point.set_coords self coordinates) as [self' [e |]] eqn:E; simpl.
  - rewrite (Hfail self' e eq_refl). exact Hv.
  - destruct (proj1 (Hsucc self') eq_refl) as [Hraw Hinit].
    apply (Point_init_raw_coordinate coordinates self' Hraw Hinit).
Qed.

Lemma Point_set_coords_spec_witness :
  Point.set_coords
    {| Point._coordinates := [PyFloat (float_lit "1.0");
                              PyFloat (float_lit "2.0")] |}
    (PyList [PyInt 0])
  = ({| Point._coordinates := [PyFloat (float_lit "1.0");
                               PyFloat (float_lit "2.0")] |},
     Some TypeError).
Proof.
  destruct (Point_set_coords_spec
              {| Point._coordinates := [PyFloat (float_lit "1.0");
                                        PyFloat (float_lit "2.0")] |}
              (PyList [PyInt 0])) as [_ [H _]].
  destruct (Point.set_coords _ (PyList [PyInt 0])) as [self' [e |]] eqn:E.
  - rewrite (H self' e eq_refl). vm_compute in E. inversion E. reflexivity.
  - vm_compute in E. discriminate E.
Defined.

(** ** LineString and LinearRing: mapping, acceptance and setters *)

Lemma mapM_ok_length {A B : Type} (f : A -> result B) (l : list A)
      (r : list B) :
  mapM f l = Ok r -> List.length r = List.length l.
Proof.
  revert r. induction l as [| a l IH]; simpl; intros r H.
  - inversion H. reflexivity.
  - bind_inv H as b Hb. bind_inv H as bs Hbs. inversion H; subst. simpl.
    f_equal. apply IH. exact Hbs.
Qed.

Lemma index_items_ends (l : list pyval) :
  l <> [] ->
  exists first last, index_items l 0 = Ok first /\
                     index_items l (-1) = Ok last.
Proof.
  intros Hl. destruct (exists_last Hl) as [l' [b Hb]].
  destruct l as [| a l]; [contradiction |].
  exists a, b. split; [reflexivity |].
  rewrite Hb. apply index_items_last.
Qed.

(** What a sequence of a mapping answers to [v[i]]: the item of
    [tuple(v)] at [i]. *)
Lemma py_getitem_iter (v : pyval) (items : list pyval) (i : Z) :
  py_iter v = Ok items -> py_getitem v i = index_items items i.
Proof.
  destruct v; simpl; intros H; inversion H; reflexivity.
Qed.

Lemma geo_interface_items (ty : string) (c : pyval) (gi : string * pyval) :
  _Feature.__geo_interface__ ty c = Ok (Some gi) ->
  exists items, py_iter c = Ok items /\ items <> [] /\
                gi = (ty, PyTuple items).
Proof.
  unfold _Feature.__geo_interface__.
  destruct (truthy (PyStr ty)); simpl; [| discriminate].
  destruct (truthy c) eqn:Ht; [| discriminate].
  intros H. bind_inv H as items Hitems. inversion H; subst.
  exists items. split; [exact Hitems | split; [| reflexivity]].
  intros ->. destruct c; simpl in Hitems; try discriminate Hitems;
    inversion Hitems; subst; try discriminate Ht.
  destruct s; [discriminate Ht | discriminate H1].
Qed.

(** X5: the mapping of a LineString holds the tuple of its coordinates;
    [LineString] applied to an object with that mapping keeps the tuple
    as it is, so that the copy has the coordinates of the original; and
    [as_shape] builds a LineString with the same coordinates when the
    original is normalised. *)
Theorem LineString_mapping_roundtrip
        (self : LineString.t) (gi : string * pyval) :
  LineString.__geo_interface__ self = Ok (Some gi) ->
  exists items,
    gi = ("LineString", PyTuple items) /\
    LineString.coords self = Ok (PyTuple items) /\
    LineString.__init__ (PyGeo (fst gi) (snd gi))
    = Ok {| LineString._coordinates := PyTuple items |} /\
    LineString.coords {| LineString._coordinates := PyTuple items |}
    = LineString.coords self /\
    (normalised self = true ->
     as_shape (PyGeo (fst gi) (snd gi))
     = Ok (ALineString {| LineString._coordinates := PyList items |})).
Proof.
  intros H. unfold LineString.__geo_interface__ in H.
  destruct (geo_interface_items _ _ _ H) as [items [Hi [_ ->]]].
  exists items. unfold LineString.coords. rewrite Hi. simpl.
  repeat (split; [reflexivity |]).
  intros Hn. unfold as_shape. simpl.
  assert (Hitems : forallb is_coordinate items = true /\
                   same_dimension items = true).
  { unfold normalised in Hn.
    destruct (LineString._coordinates self); try discriminate Hn;
      simpl in Hi; inversion Hi; subst;
      apply andb_true_iff in Hn; exact Hn. }
  destruct Hitems as [Hc Hd].
  rewrite (LineString_init_normal items Hc Hd). reflexivity.
Qed.

Lemma LineString_mapping_roundtrip_witness :
  exists l gi,
    LineString.__init__ (PyList [PyList [PyInt 0; PyInt 0];
                                 PyList [PyInt 1; PyInt 2]]) = Ok l /\
    LineString.__geo_interface__ l = Ok (Some gi) /\
    as_shape (PyGeo (fst gi) (snd gi)) = Ok (ALineString l).
Proof.
  eexists. eexists.
  split; [vm_compute; reflexivity |].
  split; [vm_compute; reflexivity |].
  match goal with
  | |- as_shape (PyGeo (fst ?gi) _) = Ok (ALineString ?l) =>
      destruct (LineString_mapping_roundtrip l gi)
        as [items [Hgi [_ [_ [_ H]]]]]
  end.
  - vm_compute. reflexivity.
  - inversion Hgi; subst. apply H. vm_compute. reflexivity.
Defined.

(** X6: [LinearRing] applied to an object whose mapping is that of a
    LineString that is not closed raises [AttributeError]: the mapping
    holds a tuple, to which nothing can be appended. *)
Theorem LinearRing_of_open_line_fails
        (self : LineString.t) (gi : string * pyval) :
  LineString.__geo_interface__ self = Ok (Some gi) ->
  ring_closed self = false ->
  LinearRing.__init__ (PyGeo (fst gi) (snd gi)) = Raise AttributeError.
Proof.
  intros H Hopen. unfold LineString.__geo_interface__ in H.
  destruct (geo_interface_items _ _ _ H) as [items [Hi [Hne ->]]].
  destruct (index_items_ends items Hne) as [first [last [Hf Hl]]].
  unfold ring_closed in Hopen.
  rewrite (py_getitem_iter _ items 0 Hi) in Hopen.
  rewrite (py_getitem_iter _ items (-1) Hi) in Hopen.
  rewrite Hf, Hl in Hopen.
  change (LinearRing.close {| LineString._coordinates := PyTuple items |}
          = Raise AttributeError).
  unfold LinearRing.close.
  cbn [LineString._coordinates py_getitem].
  rewrite Hf, Hl. cbn [bind]. unfold pyne. rewrite Hopen.
  cbn [negb LineString._coordinates py_getitem]. reflexivity.
Qed.

Lemma LinearRing_of_open_line_fails_witness :
  exists l gi,
    LineString.__init__ (PyList [PyList [PyInt 0; PyInt 0];
                                 PyList [PyInt 1; PyInt 2]]) = Ok l /\
    LineString.__geo_interface__ l = Ok (Some gi) /\
    LinearRing.__init__ (PyGeo (fst gi) (snd gi)) = Raise AttributeError.
Proof.
  eexists. eexists.
  split; [vm_compute; reflexivity |].
  split; [vm_compute; reflexivity |].
  match goal with
  | |- LinearRing.__init__ (PyGeo (fst ?gi) _) = _ =>
      apply (LinearRing_of_open_line_fails
               {| LineString._coordinates :=
                   PyList [PyTuple [PyFloat (float_lit "0.0");
                                    PyFloat (float_lit "0.0")];
                           PyTuple [PyFloat (float_lit "1.0");
                                    PyFloat (float_lit "2.0")]] |} gi)
  end; vm_compute; reflexivity.
Defined.

(** Closing a list of coordinates fails on the empty list alone. *)
Lemma close_list (l : list pyval) :
  (l = [] /\
   LinearRing.close {| LineString._coordinates := PyList l |}
   = Raise IndexError) \/
  (l <> [] /\
   exists ring l',
     LinearRing.close {| LineString._coordinates := PyList l |} = Ok ring /\
     LineString._coordinates ring = PyList l' /\
     (l' = l \/ exists first, l' = l ++ [first])).
Proof.
  destruct l as [| a l].
  - left. split; reflexivity.
  - right. split; [discriminate |].
    destruct (index_items_ends (a :: l)) as [first [last [Hf Hl]]];
      [discriminate |].
    unfold LinearRing.close. cbn [LineString._coordinates py_getitem].
    rewrite Hf, Hl. cbn [bind]. unfold pyne.
    destruct (pyeq first last); cbn [negb].
    + eexists. exists (a :: l).
      split; [reflexivity | split; [reflexivity | left; reflexivity]].
    + cbn [LineString._coordinates py_getitem bind py_append].
      eexists. exists ((a :: l) ++ [first]).
      split; [reflexivity | split; [reflexivity |]].
      right. exists first. reflexivity.
Qed.



(** X8: when the setter of [LineString.coords] raises, the object is as
    it was before, and it raises [ValueError] for everything that is not
    a list or tuple, an object with a mapping included.  When the setter
    of [LinearRing.coords] raises, the ring is as it was before, except
    for the empty sequence: then the call raises [IndexError] and leaves
    the ring without coordinates. *)
Theorem coords_setters_on_failure
        (self self' : LineString.t) (coordinates : pyval) (e : exn) :
  (LineString.set_coords self coordinates = (self', Some e) ->
   self' = self) /\
  (is_list_or_tuple coordinates = false ->
   LineString.set_coords self coordinates = (self, Some ValueError)) /\
  (LinearRing.set_coords self coordinates = (self', Some e) ->
   self' = self \/
   (self' = {| LineString._coordinates := PyList [] |} /\
    e = IndexError /\
    (coordinates = PyList [] \/ coordinates = PyTuple []))) /\
  LinearRing.set_coords self (PyList [])
  = ({| LineString._coordinates := PyList [] |}, Some IndexError).
Proof.
  assert (Hline : forall s' e',
             LineString.set_coords self coordinates = (s', Some e') ->
             s' = self).
  { intros s' e'. unfold LineString.set_coords.
    destruct coordinates; try (intros H; inversion H; reflexivity);
      destruct (LineString.init_loop items [] None);
      intros H; inversion H; reflexivity. }
  split; [apply Hline |].
  split; [destruct coordinates; intros H; try discriminate H; reflexivity |].
  split; [| reflexivity].
  unfold LinearRing.set_coords.
  destruct (LineString.set_coords self coordinates) as [base [e' |]] eqn:Hset.
  - intros H. inversion H; subst. left. apply (Hline _ _ eq_refl).
  - destruct (LinearRing.close base) as [ring | e'] eqn:Hclose;
      [intros H; discriminate H |].
    intros H. inversion H; subst. right.
    destruct (set_coords_raw self self' coordinates Hset) as [Hraw Hinit].
    assert (Hcs : exists cs, (coordinates = PyList cs \/
                              coordinates = PyTuple cs) /\
                             (LineString.__init__ (PyList cs) = Ok self' \/
                              LineString.__init__ (PyTuple cs) = Ok self')).
    { destruct coordinates; try discriminate Hraw; exists items; auto. }
    destruct Hcs as [cs [Hco Hin]].
    destruct (LineString_raw_stored cs self' Hin) as [ps [Hps [Hc _]]].
    destruct self' as [c]. simpl in Hc. subst c.
    destruct (close_list (map Point.coords ps))
      as [[Hnil Hfail] | [_ [ring [l' [Hok _]]]]].
    + rewrite Hfail in Hclose. inversion Hclose; subst.
      rewrite Hnil. split; [reflexivity | split; [reflexivity |]].
      apply map_eq_nil in Hnil. subst ps.
      pose proof (mapM_ok_length _ _ _ Hps) as Hlen.
      symmetry in Hlen. apply length_zero_iff_nil in Hlen. subst cs.
      exact Hco.
    + rewrite Hok in Hclose. discriminate Hclose.
Qed.

Lemma coords_setters_on_failure_witness :
  LineString.set_coords
    {| LineString._coordinates := PyList [] |} geojson_line
  = ({| LineString._coordinates := PyList [] |}, Some ValueError).
Proof.
  destruct (coords_setters_on_failure
              {| LineString._coordinates := PyList [] |}
              {| LineString._coordinates := PyList [] |}
              geojson_line ValueError) as [_ [H _]].
  apply H. reflexivity.
Defined.

(** ** Polygon: rings, mapping and the forms of the arguments *)

Lemma LinearRing_init_ends_meet (r : pyval) (ring : LineString.t) :
  LinearRing.__init__ r = Ok ring -> ring_ends_meet ring = true.
Proof.
  unfold LinearRing.__init__. intros H. bind_inv H as base Hbase.
  apply (close_ends_meet base ring H).
Qed.

Lemma mapM_Forall {A B : Type} (f : A -> result B) (P : B -> Prop)
      (l : list A) (r : list B) :
  (forall a b, f a = Ok b -> P b) -> mapM f l = Ok r -> Forall P r.
Proof.
  intros Hf. revert r. induction l as [| a l IH]; simpl; intros r H.
  - inversion H. constructor.
  - bind_inv H as b Hb. bind_inv H as bs Hbs. inversion H; subst.
    constructor; [apply (Hf a b Hb) | apply IH; exact Hbs].
Qed.

Lemma holes_loop_rings (holes : list pyval) :
  forall acc rings,
    Forall (fun r => ring_ends_meet r = true) acc ->
    Polygon.holes_loop holes acc = Ok rings ->
    Forall (fun r => ring_ends_meet r = true) rings.
Proof.
  assert (Hsnoc : forall acc hole r,
             Forall (fun r => ring_ends_meet r = true) acc ->
             LinearRing.__init__ hole = Ok r ->
             Forall (fun r => ring_ends_meet r = true) (acc ++ [r])).
  { intros acc hole r Hacc Hr. apply Forall_app. split; [exact Hacc |].
    constructor; [apply (LinearRing_init_ends_meet hole r Hr) | constructor]. }
  induction holes as [| hole holes IH]; simpl; intros acc rings Hacc H.
  - inversion H; subst. exact Hacc.
  - destruct (has_geo_interface hole).
    + bind_inv H as gi Hgi.
      destruct (String.eqb (fst gi) "LinearRing"); [| discriminate H].
      bind_inv H as r Hr. apply (IH _ _ (Hsnoc acc hole r Hacc Hr) H).
    + destruct (is_list_or_tuple hole).
      * bind_inv H as r Hr. apply (IH _ _ (Hsnoc acc hole r Hacc Hr) H).
      * apply (IH _ _ Hacc H).
Qed.

(** X9: in every polygon the constructor builds, whatever the form of
    its arguments, the first coordinate of the exterior and of each
    interior is the last one of that ring or equal to it. *)
Theorem Polygon_rings_closed (shell holes : pyval) (p : Polygon.t) :
  Polygon.__init__ shell holes = Ok p ->
  ring_ends_meet (Polygon.exterior p) = true /\
  Forall (fun r => ring_ends_meet r = true) (Polygon.interiors p).
Proof.
  unfold Polygon.__init__. intros H. bind_inv H as ints Hints.
  assert (Hi : Forall (fun r => ring_ends_meet r = true) ints).
  { destruct (truthy holes).
    - bind_inv Hints as hs Hhs. apply (holes_loop_rings hs [] ints); auto.
    - inversion Hints. constructor. }
  assert (Hm : forall hs rings,
             mapM LinearRing.__init__ hs = Ok rings ->
             Forall (fun r => ring_ends_meet r = true) rings)
    by (intros hs rings; apply mapM_Forall; apply LinearRing_init_ends_meet).
  destruct (has_geo_interface shell).
  - bind_inv H as gi Hgi.
    destruct (String.eqb (fst gi) "LinearRing").
    + bind_inv H as ext Hext. inversion H; subst. simpl.
      split; [apply (LinearRing_init_ends_meet _ _ Hext) | exact Hi].
    + destruct (String.eqb (fst gi) "Polygon"); [| discriminate H].
      bind_inv H as ring0 Hring0. bind_inv H as ext Hext.
      bind_inv H as n Hn.
      destruct (Nat.ltb 1 n).
      * bind_inv H as tail Htail. bind_inv H as hs Hhs.
        bind_inv H as rings Hrings. inversion H; subst. simpl.
        split; [apply (LinearRing_init_ends_meet _ _ Hext) |
                apply (Hm hs rings Hrings)].
      * inversion H; subst. simpl.
        split; [apply (LinearRing_init_ends_meet _ _ Hext) | exact Hi].
  - destruct (is_list_or_tuple shell); [| discriminate H].
    bind_inv H as s0 Hs0.
    destruct (negb (is_list_or_tuple s0)); [discriminate H |].
    bind_inv H as s00 Hs00.
    destruct (is_list_or_tuple s00).
    + bind_inv H as ext Hext. bind_inv H as s1 Hs1.
      bind_inv H as hs Hhs. bind_inv H as rings Hrings.
      inversion H; subst. simpl.
      split; [apply (LinearRing_init_ends_meet _ _ Hext) |].
      apply Forall_app. split; [exact Hi | apply (Hm hs rings Hrings)].
    + bind_inv H as ext Hext. inversion H; subst. simpl.
      split; [apply (LinearRing_init_ends_meet _ _ Hext) | exact Hi].
Qed.

Lemma Polygon_rings_closed_witness :
  exists p,
    Polygon.__init__ unit_square (PyList [small_triangle]) = Ok p /\
    ring_ends_meet (Polygon.exterior p) = true /\
    Forall (fun r => ring_ends_meet r = true) (Polygon.interiors p).
Proof.
  eexists. split; [vm_compute; reflexivity |].
  match goal with
  | |- ring_ends_meet (Polygon.exterior ?p) = true /\ _ =>
      apply (Polygon_rings_closed unit_square (PyList [small_triangle]) p)
  end.
  vm_compute. reflexivity.
Defined.

Lemma index_items_nat (l : list pyval) (k : nat) :
  index_items l (Z.of_nat k)
  = match nth_error l k with
    | Some x => Ok x
    | None => Raise IndexError
    end.
Proof.
  unfold index_items.
  replace (Z.ltb (Z.of_nat k) 0) with false
    by (symmetry; apply Z.ltb_ge; lia).
  replace (Z.leb 0 (Z.of_nat k)) with true
    by (symmetry; apply Z.leb_le; lia).
  rewrite Nat2Z.id. simpl andb.
  destruct (Z.ltb (Z.of_nat k) (Z.of_nat (List.length l))) eqn:E.
  - reflexivity.
  - apply Z.ltb_ge in E.
    assert (Hk : (List.length l <= k)%nat) by lia.
    apply nth_error_None in Hk. rewrite Hk. reflexivity.
Qed.

(** A normal ring: what it stores, what [coords] reads of it and what
    [LinearRing] builds of that. *)
Lemma ring_rebuild (r : LineString.t) :
  ring_normal r = true ->
  LinearRing.coords r = Ok (ring_tuple r) /\
  LinearRing.__init__ (ring_tuple r) = Ok (as_list r) /\
  ring_normal (as_list r) = true /\
  exists pt rest, stored_items r = pt :: rest /\ is_coordinate pt = true.
Proof.
  unfold ring_normal. intros H. apply andb_true_iff in H.
  destruct H as [Hn Hclosed].
  assert (Hl : (LineString._coordinates r = PyList (stored_items r) \/
                LineString._coordinates r = PyTuple (stored_items r)) /\
               forallb is_coordinate (stored_items r) = true /\
               same_dimension (stored_items r) = true).
  { unfold normalised in Hn. unfold stored_items.
    destruct (LineString._coordinates r); try discriminate Hn;
      apply andb_true_iff in Hn; auto. }
  destruct Hl as [Hring [Hc Hd]].
  set (l := stored_items r) in *.
  assert (Hidx : exists first last,
             index_items l 0 = Ok first /\ index_items l (-1) = Ok last /\
             pyeq first last = true).
  { unfold ring_closed in Hclosed.
    destruct Hring as [Hring | Hring]; rewrite Hring in Hclosed;
      cbn [py_getitem] in Hclosed;
      destruct (index_items l 0) as [first |]; try discriminate Hclosed;
      destruct (index_items l (-1)) as [last |]; try discriminate Hclosed;
      exists first, last; auto. }
  destruct Hidx as [first [last [Hf [Hla Heq]]]].
  assert (Hcoords : forall self,
             LineString._coordinates self = PyList l \/
             LineString._coordinates self = PyTuple l ->
             LinearRing.coords self = Ok (PyTuple l)).
  { intros self Hself. unfold LinearRing.coords.
    destruct Hself as [-> | ->]; cbn [py_getitem];
      rewrite Hf, Hla; cbn [bind]; rewrite Heq; reflexivity. }
  split; [apply Hcoords; exact Hring |].
  split; [| split].
  - unfold ring_tuple, LinearRing.__init__. fold l.
    rewrite (LineString_init_normal l Hc Hd). cbn [bind].
    unfold LinearRing.close. cbn [LineString._coordinates py_getitem].
    rewrite Hf, Hla. cbn [bind]. unfold pyne. rewrite Heq. reflexivity.
  - unfold as_list, normalised, ring_closed. fold l.
    cbn [LineString._coordinates py_getitem].
    rewrite Hc, Hd, Hf, Hla. exact Heq.
  - destruct (index_items_head l first Hf) as [rest Hrest].
    exists first, rest. split; [exact Hrest |].
    rewrite Hrest in Hc. simpl in Hc. apply andb_true_iff in Hc.
    destruct Hc as [Hc _]. exact Hc.
Qed.

Lemma rings_coords (rs : list LineString.t) :
  forallb ring_normal rs = true ->
  mapM LinearRing.coords rs = Ok (map ring_tuple rs).
Proof.
  induction rs as [| r rs IH]; simpl; intros H.
  - reflexivity.
  - apply andb_true_iff in H. destruct H as [Hr Hrs].
    destruct (ring_rebuild r Hr) as [Hc _].
    rewrite Hc. simpl. rewrite (IH Hrs). reflexivity.
Qed.

Lemma rings_rebuild (rs : list LineString.t) :
  forallb ring_normal rs = true ->
  mapM LinearRing.__init__ (map ring_tuple rs) = Ok (map as_list rs) /\
  forallb ring_normal (map as_list rs) = true.
Proof.
  induction rs as [| r rs IH]; simpl; intros H.
  - split; reflexivity.
  - apply andb_true_iff in H. destruct H as [Hr Hrs].
    destruct (ring_rebuild r Hr) as [_ [Hi [Hn _]]].
    destruct (IH Hrs) as [IH1 IH2].
    rewrite Hi. simpl. rewrite IH1, Hn, IH2. split; reflexivity.
Qed.

Lemma as_list_items (r : LineString.t) :
  ring_tuple (as_list r) = ring_tuple r.
Proof. reflexivity. Qed.

Lemma Polygon_normal_mapping (p : Polygon.t) :
  polygon_normal p = true ->
  Polygon.__geo_interface__ p = Ok (Some ("Polygon", polygon_tuple p)).
Proof.
  unfold polygon_normal. intros H. apply andb_true_iff in H.
  destruct H as [He Hi].
  destruct (ring_rebuild _ He) as [Hc _].
  unfold Polygon.__geo_interface__, polygon_tuple.
  unfold Polygon.exterior, Polygon.interiors in *.
  destruct (Polygon._interiors p) as [| h hs] eqn:E.
  - rewrite Hc. reflexivity.
  - rewrite Hc. cbn [bind]. rewrite (rings_coords (h :: hs) Hi). reflexivity.
Qed.

(** X10: a polygon whose rings are normal exposes the mapping that holds
    the tuple of its exterior followed by those of its interiors;
    [Polygon] applied to an object with that mapping builds the polygon
    with the same rings, stored in lists, and that polygon exposes the
    same mapping. *)
Theorem Polygon_mapping_roundtrip (p : Polygon.t) :
  polygon_normal p = true ->
  Polygon.__geo_interface__ p = Ok (Some ("Polygon", polygon_tuple p)) /\
  Polygon.__init__ (PyGeo "Polygon" (polygon_tuple p)) PyNone
  = Ok (polygon_as_lists p) /\
  Polygon.__geo_interface__ (polygon_as_lists p)
  = Ok (Some ("Polygon", polygon_tuple p)).
Proof.
  intros H. pose proof (Polygon_normal_mapping p H) as Hgi.
  unfold polygon_normal in H. apply andb_true_iff in H.
  destruct H as [He Hi].
  destruct (ring_rebuild _ He) as [_ [Hinit [Hn _]]].
  destruct (rings_rebuild _ Hi) as [Hrs Hns].
  split; [exact Hgi | split].
  - unfold Polygon.__init__, polygon_tuple, polygon_as_lists.
    cbn [truthy bind has_geo_interface geo_interface fst snd].
    change (String.eqb "Polygon" "LinearRing") with false.
    change (String.eqb "Polygon" "Polygon") with true.
    cbv iota.
    change (py_getitem (PyTuple (ring_tuple (Polygon.exterior p)
                                 :: map ring_tuple (Polygon.interiors p))) 0)
      with (@Ok pyval (ring_tuple (Polygon.exterior p))).
    cbn [bind]. rewrite Hinit. cbn [bind py_len List.length].
    rewrite length_map.
    destruct (Polygon.interiors p) as [| h hs] eqn:E.
    + reflexivity.
    + change (Nat.ltb 1 (S (List.length (h :: hs)))) with true.
      cbv iota. cbn [py_slice_from skipn bind py_iter].
      rewrite Hrs. reflexivity.
  - assert (Hp : polygon_normal (polygon_as_lists p) = true).
    { unfold polygon_normal, polygon_as_lists. simpl.
      unfold Polygon.exterior, Polygon.interiors in *. simpl.
      rewrite Hn, Hns. reflexivity. }
    rewrite (Polygon_normal_mapping _ Hp).
    unfold polygon_tuple, polygon_as_lists. simpl.
    unfold Polygon.exterior, Polygon.interiors. simpl.
    rewrite map_map. reflexivity.
Qed.

Lemma Polygon_mapping_roundtrip_witness :
  exists p,
    Polygon.__init__ unit_square (PyList [small_triangle]) = Ok p /\
    Polygon.__init__ (PyGeo "Polygon" (polygon_tuple p)) PyNone = Ok p.
Proof.
  eexists. split; [vm_compute; reflexivity |].
  match goal with
  | |- Polygon.__init__ (PyGeo "Polygon" (polygon_tuple ?p)) PyNone = _ =>
      destruct (Polygon_mapping_roundtrip p) as [_ [H _]]
  end.
  - vm_compute. reflexivity.
  - exact H.
Defined.

(** A Coordinate is no sequence of points: [LinearRing] rejects it. *)
Lemma LinearRing_of_coordinate (pt : pyval) :
  is_coordinate pt = true -> LinearRing.__init__ pt = Raise TypeError.
Proof.
  destruct pt; try discriminate. intros H.
  destruct (coordinate_items items H) as [fx [fy [rest [-> _]]]].
  reflexivity.
Qed.

Lemma tuple_first (x : pyval) (l : list pyval) :
  py_getitem (PyTuple (x :: l)) 0 = Ok x.
Proof. reflexivity. Qed.

Lemma Polygon_of_own_coordinates (p : Polygon.t) :
  polygon_normal p = true ->
  Polygon.__init__ (polygon_tuple p) PyNone
  = Raise (match Polygon.interiors p with
           | [] => IndexError
           | _ => TypeError
           end).
Proof.
  unfold polygon_normal. intros H. apply andb_true_iff in H.
  destruct H as [He Hi].
  destruct (ring_rebuild _ He) as [_ [Hinit [_ [pt [rest [Hitems Hpt]]]]]].
  assert (Hseq : is_list_or_tuple pt = true)
    by (destruct pt; try discriminate Hpt; reflexivity).
  assert (Hrt : ring_tuple (Polygon.exterior p) = PyTuple (pt :: rest))
    by (unfold ring_tuple; rewrite Hitems; reflexivity).
  unfold polygon_tuple. rewrite Hrt in *.
  unfold Polygon.__init__.
  cbn [truthy bind has_geo_interface is_list_or_tuple].
  rewrite !tuple_first. cbn [bind is_list_or_tuple negb].
  rewrite tuple_first. cbn [bind]. rewrite Hseq, Hinit. cbn [bind].
  change 1 with (Z.of_nat 1). cbn [py_getitem]. rewrite index_items_nat.
  destruct (Polygon.interiors p) as [| h hs] eqn:E.
  - reflexivity.
  - simpl in Hi. apply andb_true_iff in Hi. destruct Hi as [Hh _].
    destruct (ring_rebuild h Hh) as [_ [_ [_ [pt' [rest' [Hitems' Hpt']]]]]].
    cbn [map nth_error bind]. unfold ring_tuple at 1. rewrite Hitems'.
    cbn [py_iter bind mapM].
    rewrite (LinearRing_of_coordinate pt' Hpt'). reflexivity.
Qed.



Lemma holes_loop_raw (hs : list pyval) :
  forall acc,
    forallb is_list_or_tuple hs = true ->
    Polygon.holes_loop hs acc
    = (rings <- mapM LinearRing.__init__ hs ;; Ok (acc ++ rings)).
Proof.
  induction hs as [| hole hs IH]; simpl; intros acc H.
  - rewrite app_nil_r. reflexivity.
  - apply andb_true_iff in H. destruct H as [Hh Hhs].
    rewrite Hh.
    replace (has_geo_interface hole) with false
      by (destruct hole; try discriminate Hh; reflexivity).
    destruct (LinearRing.__init__ hole) as [r |]; simpl; [| reflexivity].
    rewrite (IH (acc ++ [r]) Hhs).
    destruct (mapM LinearRing.__init__ hs); simpl; [| reflexivity].
    rewrite <- app_assoc. reflexivity.
Qed.

(** X12: a shell and its holes may be passed as two arguments or as one
    pair.  For a shell that is a raw sequence of raw points and holes
    that are a list or tuple of lists or tuples, [Polygon((shell,
    holes))] builds a polygon exactly when [Polygon(shell, holes)] does,
    and the same one: the exterior is [LinearRing(shell)] and the
    interiors are [LinearRing] of each hole, in order. *)
Theorem Polygon_pair_form
        (shell holes pair pt x : pyval) (hs : list pyval) (p : Polygon.t) :
  is_list_or_tuple shell = true ->
  py_getitem shell 0 = Ok pt ->
  is_list_or_tuple pt = true ->
  py_getitem pt 0 = Ok x ->
  is_list_or_tuple x = false ->
  holes = PyList hs \/ holes = PyTuple hs ->
  forallb is_list_or_tuple hs = true ->
  pair = PyList [shell; holes] \/ pair = PyTuple [shell; holes] ->
  (Polygon.__init__ pair PyNone = Ok p <->
   Polygon.__init__ shell holes = Ok p) /\
  (Polygon.__init__ shell holes = Ok p <->
   exists ext rings,
     LinearRing.__init__ shell = Ok ext /\
     mapM LinearRing.__init__ hs = Ok rings /\
     p = {| Polygon._exterior := ext; Polygon._interiors := rings |}).
Proof.
  intros Hshell Hpt Hptseq Hx Hxflat Hholes Hhs Hpair.
  assert (Hnogeo : has_geo_interface shell = false)
    by (destruct shell; try discriminate Hshell; reflexivity).
  assert (Htwo : Polygon.__init__ shell holes
                 = (rings <- mapM LinearRing.__init__ hs ;;
                    ext <- LinearRing.__init__ shell ;;
                    Ok {| Polygon._exterior := ext;
                          Polygon._interiors := rings |})).
  { unfold Polygon.__init__.
    rewrite Hnogeo, Hshell, Hpt. cbn [bind]. rewrite Hptseq, Hx.
    cbn [bind negb]. rewrite Hxflat.
    assert (Hloop : (if truthy holes
                     then hs0 <- py_iter holes ;; Polygon.holes_loop hs0 []
                     else Ok [])
                    = mapM LinearRing.__init__ hs).
    { destruct Hholes as [-> | ->]; cbn [truthy py_iter bind];
        (destruct hs as [| h hs']; [reflexivity |]);
        rewrite (holes_loop_raw (h :: hs') [] Hhs);
        destruct (mapM LinearRing.__init__ (h :: hs')); reflexivity. }
    rewrite Hloop. reflexivity. }
  assert (Hone : Polygon.__init__ pair PyNone
                 = (ext <- LinearRing.__init__ shell ;;
                    rings <- mapM LinearRing.__init__ hs ;;
                    Ok {| Polygon._exterior := ext;
                          Polygon._interiors := rings |})).
  { unfold Polygon.__init__.
    destruct Hpair as [-> | ->];
      cbn [truthy bind has_geo_interface is_list_or_tuple];
      [change (py_getitem (PyList [shell; holes]) 0) with (@Ok pyval shell);
       change (py_getitem (PyList [shell; holes]) 1) with (@Ok pyval holes)
      |change (py_getitem (PyTuple [shell; holes]) 0) with (@Ok pyval shell);
       change (py_getitem (PyTuple [shell; holes]) 1) with (@Ok pyval holes)];
      cbn [bind]; rewrite Hshell, Hpt; cbn [bind negb]; rewrite Hptseq;
      destruct (LinearRing.__init__ shell); cbn [bind]; try reflexivity;
      destruct Hholes as [-> | ->]; cbn [py_iter bind]; reflexivity. }
  rewrite Hone, Htwo.
  destruct (LinearRing.__init__ shell) as [ext | e1];
    destruct (mapM LinearRing.__init__ hs) as [rings | e2]; cbn [bind].
  - split; [reflexivity |]. split.
    + intros H. exists ext, rings. inversion H. auto.
    + intros [ext' [rings' [H1 [H2 ->]]]]. inversion H1. inversion H2.
      reflexivity.
  - split; [split; intros H; discriminate H |].
    split; [intros H; discriminate H |].
    intros [ext' [rings' [_ [H2 _]]]]. discriminate H2.
  - split; [split; intros H; discriminate H |].
    split; [intros H; discriminate H |].
    intros [ext' [rings' [H1 _]]]. discriminate H1.
  - split; [split; intros H; discriminate H |].
    split; [intros H; discriminate H |].
    intros [ext' [rings' [H1 _]]]. discriminate H1.
Qed.

Lemma Polygon_pair_form_witness :
  exists p,
    Polygon.__init__ unit_square (PyList [small_triangle]) = Ok p /\
    Polygon.__init__ (PyTuple [unit_square; PyList [small_triangle]]) PyNone
    = Ok p.
Proof.
  eexists. split; [vm_compute; reflexivity |].
  match goal with
  | |- _ = Ok ?p =>
      apply (proj2 (proj1 (Polygon_pair_form
                             unit_square (PyList [small_triangle])
                             (PyTuple [unit_square; PyList [small_triangle]])
                             (PyTuple [PyInt 0; PyInt 0]) (PyInt 0)
                             [small_triangle] p
                             eq_refl eq_refl eq_refl eq_refl eq_refl
                             (or_introl eq_refl) eq_refl
                             (or_intror eq_refl))))
  end.
  vm_compute. reflexivity.
Defined.

(** ** MultiPoint: construction and mapping *)

Lemma MultiPoint_init_loop_raw (cs : list pyval) :
  forall acc,
    forallb is_list_or_tuple cs = true ->
    MultiPoint.init_loop cs acc
    = (ps <- points_of_raw cs ;; Ok (acc ++ ps)).
Proof.
  unfold points_of_raw.
  induction cs as [| c cs IH]; simpl; intros acc H.
  - rewrite app_nil_r. reflexivity.
  - apply andb_true_iff in H. destruct H as [Hc Hcs].
    rewrite Hc.
    replace (has_geo_interface c) with false
      by (destruct c; try discriminate Hc; reflexivity).
    destruct (Point.__init__ [c]) as [p |]; simpl; [| reflexivity].
    rewrite (IH (acc ++ [p]) Hcs).
    destruct (mapM _ cs); simpl; [| reflexivity].
    rewrite <- app_assoc. reflexivity.
Qed.

(** X13: a MultiPoint built from a list or tuple of raw points has one
    child for each of them, in their order, each child being the point
    [Point] builds of the item; every child then owns a Coordinate. *)
Theorem MultiPoint_of_raw_points (cs : list pyval) (m : MultiPoint.t) :
  forallb is_list_or_tuple cs = true ->
  MultiPoint.__init__ (PyList cs) = Ok m \/
  MultiPoint.__init__ (PyTuple cs) = Ok m ->
  points_of_raw cs = Ok (MultiPoint.geoms m) /\
  List.length (MultiPoint.geoms m) = List.length cs /\
  points_valid m = true.
Proof.
  intros Hcs H.
  assert (H' : MultiPoint.__init__ (PyList cs) = Ok m)
    by (destruct H as [H | H]; exact H).
  unfold MultiPoint.__init__ in H'.
  rewrite (MultiPoint_init_loop_raw cs [] Hcs) in H'.
  bind_inv H' as geoms Hg. bind_inv Hg as ps Hps.
  assert (Hm : MultiPoint.geoms m = ps)
    by (inversion Hg; inversion H'; reflexivity).
  clear Hg H'. unfold points_valid. rewrite Hm.
  split; [exact Hps |].
  split; [apply (mapM_ok_length _ _ _ Hps) |].
  rewrite <- (forallb_on_map Point.coords is_coordinate ps).
  apply (points_of_raw_coordinates cs ps Hcs Hps).
Qed.

Lemma MultiPoint_of_raw_points_witness :
  exists m,
    MultiPoint.__init__ (PyList [PyList [PyInt 0; PyInt 0];
                                 PyTuple [PyInt 1; PyInt 2; PyInt 3]]) = Ok m /\
    List.length (MultiPoint.geoms m) = 2%nat /\
    points_valid m = true.
Proof.
  eexists. split; [vm_compute; reflexivity |].
  match goal with
  | |- List.length (MultiPoint.geoms ?m) = _ /\ _ =>
      destruct (MultiPoint_of_raw_points
                  [PyList [PyInt 0; PyInt 0];
                   PyTuple [PyInt 1; PyInt 2; PyInt 3]] m eq_refl)
        as [_ [Hlen Hv]]
  end.
  - left. vm_compute. reflexivity.
  - split; [exact Hlen | exact Hv].
Defined.

Lemma MultiPoint_first_numbers (ps : list Point.t) :
  forallb (fun p => is_coordinate (Point.coords p)) ps = true ->
  exists xs,
    mapM (fun g => py_getitem (Point.coords g) 0) ps = Ok xs /\
    Forall2 (fun p x => Point.x p = Ok x) ps xs /\
    forallb is_float xs = true.
Proof.
  induction ps as [| p ps IH]; cbn [forallb mapM]; intros H.
  - exists []. split; [reflexivity | split; [constructor | reflexivity]].
  - apply andb_true_iff in H. destruct H as [Hp Hps].
    destruct (IH Hps) as [xs [Hxs [Hall Hf]]].
    destruct (coordinate_items _ Hp) as [fx [fy [rest [Hl _]]]].
    exists (PyFloat fx :: xs).
    assert (Hx : py_getitem (Point.coords p) 0 = Ok (PyFloat fx))
      by (unfold Point.coords; rewrite Hl; reflexivity).
    rewrite Hx. cbn [bind]. rewrite Hxs. cbn [bind].
    split; [reflexivity |]. split; [| simpl; exact Hf].
    constructor; [| exact Hall].
    unfold Point.x. rewrite Hl. reflexivity.
Qed.



(** ** MultiLineString and MultiPolygon: mappings read back *)

Lemma line_rebuild (l : LineString.t) :
  normalised l = true ->
  LineString.coords l = Ok (ring_tuple l) /\
  LineString.__init__ (ring_tuple l) = Ok (as_list l) /\
  normalised (as_list l) = true.
Proof.
  unfold normalised, ring_tuple, as_list, stored_items, LineString.coords.
  destruct (LineString._coordinates l); try discriminate;
    intros H; pose proof H as H'; apply andb_true_iff in H';
    destruct H' as [Hc Hd];
    (split; [reflexivity |]);
    (split; [apply (LineString_init_normal items Hc Hd) | exact H]).
Qed.

Lemma lines_rebuild (ls : list LineString.t) :
  forallb normalised ls = true ->
  mapM LineString.coords ls = Ok (map ring_tuple ls) /\
  mapM LineString.__init__ (map ring_tuple ls) = Ok (map as_list ls) /\
  forallb normalised (map as_list ls) = true.
Proof.
  induction ls as [| l ls IH]; cbn [forallb mapM map]; intros H.
  - repeat split; reflexivity.
  - apply andb_true_iff in H. destruct H as [Hl Hls].
    destruct (line_rebuild l Hl) as [Hc [Hi Hn]].
    destruct (IH Hls) as [IH1 [IH2 IH3]].
    rewrite Hc, Hi. cbn [bind]. rewrite IH1, IH2, Hn, IH3.
    repeat split; reflexivity.
Qed.

(** X15: a MultiLineString whose lines are normalised exposes the
    mapping that holds the tuple of each line; [as_shape], and
    [MultiLineString] itself, applied to an object with that mapping
    build the collection of the same lines, stored in lists, which
    exposes the same mapping. *)
Theorem MultiLineString_mapping_roundtrip (m : MultiLineString.t) :
  forallb normalised (MultiLineString.geoms m) = true ->
  exists c m',
    c = PyTuple (map ring_tuple (MultiLineString.geoms m)) /\
    m' = {| MultiLineString._geoms := map as_list (MultiLineString.geoms m) |}
    /\
    MultiLineString.__geo_interface__ m = Ok ("MultiLineString", c) /\
    as_shape (PyGeo "MultiLineString" c) = Ok (AMultiLineString m') /\
    MultiLineString.__init__ (PyGeo "MultiLineString" c) = Ok m' /\
    MultiLineString.__geo_interface__ m' = Ok ("MultiLineString", c).
Proof.
  intros H. destruct (lines_rebuild _ H) as [Hc [Hi Hn]].
  destruct (lines_rebuild _ Hn) as [Hc' _].
  eexists. eexists. split; [reflexivity |]. split; [reflexivity |].
  split; [| split; [| split]].
  - unfold MultiLineString.__geo_interface__. rewrite Hc. reflexivity.
  - unfold as_shape. cbn [has_geo_interface geo_interface bind fst snd].
    change (String.eqb "MultiLineString" "Point") with false.
    change (String.eqb "MultiLineString" "LineString") with false.
    change (String.eqb "MultiLineString" "LinearRing") with false.
    change (String.eqb "MultiLineString" "Polygon") with false.
    change (String.eqb "MultiLineString" "MultiPoint") with false.
    change (String.eqb "MultiLineString" "MultiLineString") with true.
    cbv iota. unfold MultiLineString.__init__. rewrite Hi. reflexivity.
  - unfold MultiLineString.__init__.
    cbn [has_geo_interface geo_interface bind fst snd].
    change (String.eqb "MultiLineString" "LinearRing") with false.
    change (String.eqb "MultiLineString" "LineString") with false.
    change (String.eqb "MultiLineString" "MultiLineString") with true.
    cbn [orb]. cbv iota. cbn [py_iter bind]. rewrite Hi. reflexivity.
  - unfold MultiLineString.__geo_interface__, MultiLineString.geoms in *.
    cbn [MultiLineString._geoms]. rewrite Hc'. rewrite map_map.
    reflexivity.
Qed.

Lemma MultiLineString_mapping_roundtrip_witness :
  exists m gi,
    MultiLineString.__init__
      (PyList [PyList [PyList [PyInt 0; PyInt 0]; PyList [PyInt 1; PyInt 2]]])
    = Ok m /\
    MultiLineString.__geo_interface__ m = Ok gi /\
    as_shape (PyGeo (fst gi) (snd gi)) = Ok (AMultiLineString m).
Proof.
  eexists. eexists. split; [vm_compute; reflexivity |].
  split; [vm_compute; reflexivity |].
  match goal with
  | |- _ = Ok (AMultiLineString ?m) =>
      destruct (MultiLineString_mapping_roundtrip m eq_refl)
        as [c [m' [Hc [Hm' [_ [Has _]]]]]]
  end.
  subst c m'. exact Has.
Defined.

Lemma polygons_coords (ps : list Polygon.t) :
  forallb polygon_normal ps = true ->
  mapM MultiPolygon.polygon_coords ps
  = Ok (map (fun p => PyList (ring_tuple (Polygon.exterior p)
                              :: map ring_tuple (Polygon.interiors p))) ps).
Proof.
  induction ps as [| p ps IH]; cbn [forallb mapM map]; intros H.
  - reflexivity.
  - apply andb_true_iff in H. destruct H as [Hp Hps].
    unfold polygon_normal in Hp. apply andb_true_iff in Hp.
    destruct Hp as [He Hi].
    destruct (ring_rebuild _ He) as [Hc _].
    unfold MultiPolygon.polygon_coords at 1.
    rewrite Hc. cbn [bind]. rewrite (rings_coords _ Hi). cbn [bind].
    rewrite (IH Hps). reflexivity.
Qed.

(** X16: a MultiPolygon whose polygons have normal rings exposes a
    mapping that holds, for each polygon, the list of the tuples of its
    rings; no MultiPolygon can be built back from it when the collection
    is not empty: [as_shape] reads each such list as a pair of a shell
    and its holes, and raises [IndexError] when the first polygon has no
    interior and [TypeError] when it has. *)
Theorem MultiPolygon_mapping_rejected
        (m : MultiPolygon.t) (p : Polygon.t) (rest : list Polygon.t) :
  forallb polygon_normal (MultiPolygon.geoms m) = true ->
  MultiPolygon.geoms m = p :: rest ->
  exists c,
    MultiPolygon.__geo_interface__ m = Ok ("MultiPolygon", c) /\
    c = PyList (map (fun q => PyList (ring_tuple (Polygon.exterior q)
                                      :: map ring_tuple (Polygon.interiors q)))
                    (MultiPolygon.geoms m)) /\
    as_shape (PyGeo "MultiPolygon" c)
    = Raise (match Polygon.interiors p with
             | [] => IndexError
             | _ => TypeError
             end).
Proof.
  intros H Hm. eexists.
  split; [| split; [reflexivity |]].
  - unfold MultiPolygon.__geo_interface__.
    rewrite (polygons_coords _ H). reflexivity.
  - rewrite Hm in *. cbn [forallb] in H.
    apply andb_true_iff in H. destruct H as [Hp _].
    unfold polygon_normal in Hp. apply andb_true_iff in Hp.
    destruct Hp as [He Hi].
    unfold as_shape. cbn [has_geo_interface geo_interface bind fst snd].
    change (String.eqb "MultiPolygon" "Point") with false.
    change (String.eqb "MultiPolygon" "LineString") with false.
    change (String.eqb "MultiPolygon" "LinearRing") with false.
    change (String.eqb "MultiPolygon" "Polygon") with false.
    change (String.eqb "MultiPolygon" "MultiPoint") with false.
    change (String.eqb "MultiPolygon" "MultiLineString") with false.
    change (String.eqb "MultiPolygon" "MultiPolygon") with true.
    cbv iota. unfold MultiPolygon.__init__. cbn [map mapM].
    unfold MultiPolygon.init_item at 1. cbn [is_list_or_tuple].
    change (py_getitem (PyList (ring_tuple (Polygon.exterior p)
                                :: map ring_tuple (Polygon.interiors p))) 0)
      with (@Ok pyval (ring_tuple (Polygon.exterior p))).
    cbn [bind]. change 1 with (Z.of_nat 1). cbn [py_getitem].
    rewrite index_items_nat.
    destruct (Polygon.interiors p) as [| h hs] eqn:E.
    + reflexivity.
    + simpl in Hi. apply andb_true_iff in Hi. destruct Hi as [Hh _].
      destruct (ring_rebuild h Hh) as [_ [_ [_ [pt [rest' [Hitems Hpt]]]]]].
      assert (Hrt : ring_tuple h = PyTuple (pt :: rest'))
        by (unfold ring_tuple; rewrite Hitems; reflexivity).
      cbn [map nth_error bind]. unfold Polygon.__init__. rewrite Hrt.
      cbn [truthy py_iter bind Polygon.holes_loop].
      replace (has_geo_interface pt) with false
        by (destruct pt; try discriminate Hpt; reflexivity).
      replace (is_list_or_tuple pt) with true
        by (destruct pt; try discriminate Hpt; reflexivity).
      rewrite (LinearRing_of_coordinate pt Hpt). reflexivity.
Qed.

Lemma MultiPolygon_mapping_rejected_witness :
  exists p m gi,
    Polygon.__init__ unit_square PyNone = Ok p /\
    m = {| MultiPolygon._geoms := [p] |} /\
    MultiPolygon.__geo_interface__ m = Ok gi /\
    as_shape (PyGeo (fst gi) (snd gi)) = Raise IndexError.
Proof.
  eexists. eexists. eexists.
  split; [vm_compute; reflexivity |]. split; [reflexivity |].
  match goal with
  | |- MultiPolygon.__geo_interface__
         {| MultiPolygon._geoms := [?p] |} = _ /\ _ =>
      destruct (MultiPolygon_mapping_rejected
                  {| MultiPolygon._geoms := [p] |} p [] eq_refl eq_refl)
        as [c [_ [Hc Has]]]
  end.
  split; [vm_compute; reflexivity |]. subst c. exact Has.
Defined.

(** ** as_shape and from_wkt *)

(** X17: when [as_shape] returns for an object with a mapping, what it
    returns is a geometry of the class the mapping names; it raises
    [NotImplementedError] for every other type name, "GeometryCollection"
    included, and [TypeError] for an object whose mapping is [None]. *)
Theorem as_shape_dispatch :
  (forall (ty : string) (c : pyval) (s : shape),
      as_shape (PyGeo ty c) = Ok s -> shape_type s = Some ty) /\
  (forall (ty : string) (c : pyval),
      ~ In ty ["Point"; "LineString"; "LinearRing"; "Polygon";
               "MultiPoint"; "MultiLineString"; "MultiPolygon"] ->
      as_shape (PyGeo ty c) = Raise NotImplementedError) /\
  as_shape PyGeoNone = Raise TypeError.
Proof.
  split; [| split; [| reflexivity]].
  - intros ty c s H. unfold as_shape in H.
    cbn [has_geo_interface geo_interface bind fst snd] in H.
    repeat match type of H with
           | (if String.eqb ty ?name then _ else _) = _ =>
               let E := fresh "E" in
               destruct (String.eqb ty name) eqn:E;
               [apply String.eqb_eq in E; subst ty;
                match type of H with
                | bind ?x _ = _ => destruct x; simpl in H;
                                   [inversion H; reflexivity | discriminate H]
                end |]
           end.
    discriminate H.
  - intros ty c Hty. unfold as_shape.
    cbn [has_geo_interface geo_interface bind fst snd].
    repeat match goal with
           | |- (if String.eqb ty ?name then _ else _) = _ =>
               let E := fresh "E" in
               destruct (String.eqb ty name) eqn:E;
               [apply String.eqb_eq in E; exfalso; apply Hty; subst ty;
                simpl; tauto |]
           end.
    reflexivity.
Qed.

Lemma as_shape_dispatch_witness :
  as_shape (PyGeo "GeometryCollection" (PyTuple []))
  = Raise NotImplementedError.
Proof.
  destruct as_shape_dispatch as [_ [H _]].
  apply H. simpl. intros [H0 | [H0 | [H0 | [H0 | [H0 | [H0 | [H0 | []]]]]]]];
    discriminate H0.
Defined.

Lemma lstrip_idem (s : list ascii) : lstrip (lstrip s) = lstrip s.
Proof.
  induction s as [| c s IH]; simpl.
  - reflexivity.
  - destruct (is_space c) eqn:E; [exact IH |].
    simpl. rewrite E. reflexivity.
Qed.

Lemma lstrip_head (s : list ascii) :
  lstrip s = [] \/ exists c t, lstrip s = c :: t /\ is_space c = false.
Proof.
  induction s as [| c s IH]; simpl.
  - left. reflexivity.
  - destruct (is_space c) eqn:E; [exact IH |].
    right. exists c, s. split; [reflexivity | exact E].
Qed.

Lemma lstrip_keeps_last (l : list ascii) (c : ascii) :
  is_space c = false -> exists u, lstrip (l ++ [c]) = u ++ [c].
Proof.
  intros Hc. induction l as [| d l IH]; simpl.
  - rewrite Hc. exists []. reflexivity.
  - destruct (is_space d); [exact IH |].
    exists (d :: l). reflexivity.
Qed.

Lemma strip_chars_idem (s : list ascii) :
  strip_chars (strip_chars s) = strip_chars s.
Proof.
  unfold strip_chars.
  destruct (lstrip_head s) as [-> | [c [t [-> Hc]]]].
  - reflexivity.
  - destruct (lstrip_keeps_last (rev t) c Hc) as [u Hu].
    assert (H1 : rev (lstrip (rev (c :: t))) = c :: rev u).
    { simpl rev. rewrite Hu. rewrite rev_app_distr. reflexivity. }
    assert (H2 : lstrip (c :: rev u) = c :: rev u)
      by (simpl; rewrite Hc; reflexivity).
    assert (H3 : rev (c :: rev u) = u ++ [c])
      by (simpl; rewrite rev_involutive; reflexivity).
    assert (H4 : lstrip (u ++ [c]) = u ++ [c])
      by (rewrite <- Hu; apply lstrip_idem).
    rewrite H1, H2, H3, H4. rewrite rev_app_distr. reflexivity.
Qed.


Lemma LineString_raw_points_normalised (r : pyval) (l : LineString.t) :
  raw_points r = true ->
  LineString.__init__ r = Ok l ->
  normalised l = true.
Proof.
  intros Hr H.
  assert (Hcs : exists cs, forallb is_list_or_tuple cs = true /\
                  (LineString.__init__ (PyList cs) = Ok l \/
                   LineString.__init__ (PyTuple cs) = Ok l)).
  { destruct r; try discriminate Hr; exists items; auto. }
  destruct Hcs as [cs [Hall Hinit]].
  destruct (LineString_raw_stored cs l Hinit) as [ps [Hps [Hc Hd]]].
  unfold normalised. rewrite Hc.
  rewrite (points_of_raw_coordinates cs ps Hall Hps), Hd. reflexivity.
Qed.

Lemma wkt_points_raw (coords : list (list ascii)) :
  raw_points (PyList (map (fun c => PyList (map str_of (split_ws c))) coords))
  = true.
Proof.
  unfold raw_points. induction coords as [| c coords IH]; simpl.
  - reflexivity.
  - exact IH.
Qed.

(** X19: whatever [from_wkt] returns is a geometry of the data model: a
    Point that owns a Coordinate for a text that starts with POINT, a
    LineString whose coordinates are Coordinates of one length, or a
    LinearRing that is moreover closed. *)
Theorem from_wkt_builds_normal (geo_str : string) (sh : shape) :
  from_wkt geo_str = Ok sh ->
  (exists p, sh = APoint p /\
             String.prefix "POINT" (strip geo_str) = true /\
             is_coordinate (Point.coords p) = true) \/
  (exists l, sh = ALineString l /\
             String.prefix "LINESTRING" (strip geo_str) = true /\
             normalised l = true) \/
  (exists r, sh = ALinearRing r /\
             String.prefix "LINEARRING" (strip geo_str) = true /\
             ring_normal r = true).
Proof.
  unfold from_wkt. intros H.
  destruct (String.prefix "POINT" (strip geo_str)) eqn:E1.
  - bind_inv H as p Hp. inversion H; subst. left. exists p.
    split; [reflexivity | split; [reflexivity |]].
    apply (Point_init_raw_coordinate (PyList _) p eq_refl Hp).
  - destruct (String.prefix "LINESTRING" (strip geo_str)) eqn:E2.
    + bind_inv H as l Hl. inversion H; subst. right. left. exists l.
      split; [reflexivity | split; [reflexivity |]].
      apply (LineString_raw_points_normalised _ l (wkt_points_raw _) Hl).
    + destruct (String.prefix "LINEARRING" (strip geo_str)) eqn:E3;
        [| discriminate H].
      bind_inv H as r Hr. inversion H; subst. right. right. exists r.
      split; [reflexivity | split; [reflexivity |]].
      pose proof (raw_points_normalised _ r (wkt_points_raw _) Hr) as Hn.
      unfold ring_normal. rewrite Hn.
      apply (normalised_ring_closed _ r Hr Hn).
Qed.

Lemma from_wkt_builds_normal_witness :
  exists r,
    from_wkt "LINEARRING (0 0, 1 0, 1 1)" = Ok (ALinearRing r) /\
    ring_normal r = true.
Proof.
  eexists. split; [vm_compute; reflexivity |].
  match goal with
  | |- ring_normal ?r = true =>
      destruct (from_wkt_builds_normal "LINEARRING (0 0, 1 0, 1 1)"
                  (ALinearRing r))
        as [[p [H _]] | [[l [H _]] | [r' [H [_ Hn]]]]]
  end.
  - vm_compute. reflexivity.
  - discriminate H.
  - discriminate H.
  - inversion H; subst. exact Hn.
Defined.

(** X20: [MultiPoint] applied to an object with the mapping of a
    normalised LineString has one child for each coordinate of the line,
    in their order and with those coordinates. *)
Theorem MultiPoint_of_line (l : LineString.t) (gi : string * pyval) :
  normalised l = true ->
  LineString.__geo_interface__ l = Ok (Some gi) ->
  exists m,
    MultiPoint.__init__ (PyGeo (fst gi) (snd gi)) = Ok m /\
    map Point.coords (MultiPoint.geoms m) = stored_items l /\
    points_valid m = true.
Proof.
  intros Hn H. unfold LineString.__geo_interface__ in H.
  destruct (geo_interface_items _ _ _ H) as [items [Hi [_ ->]]].
  assert (Hitems : stored_items l = items /\
                   forallb is_coordinate items = true).
  { unfold normalised in Hn. unfold stored_items.
    destruct (LineString._coordinates l); try discriminate Hn;
      simpl in Hi; inversion Hi; subst;
      apply andb_true_iff in Hn; destruct Hn as [Hn _]; auto. }
  destruct Hitems as [Hs Hc].
  destruct (points_of_coordinates items Hc) as [ps [Hps Hmap]].
  exists {| MultiPoint._geoms := ps |}.
  split; [| split].
  - unfold MultiPoint.__init__, MultiPoint._from_geo_interface.
    cbn [has_geo_interface geo_interface bind fst snd].
    change (String.eqb LineString._type "Point") with false.
    change (String.eqb LineString._type "LinearRing") with false.
    change (String.eqb LineString._type "LineString") with true.
    cbn [orb]. cbv iota.
    change (LineString.__init__ (PyGeo LineString._type (PyTuple items)))
      with (@Ok LineString.t {| LineString._coordinates := PyTuple items |}).
    cbn [bind]. unfold LineString.coords.
    cbn [LineString._coordinates py_iter bind].
    unfold MultiPoint.points_of. cbn [py_iter bind].
    unfold points_of_raw in Hps. rewrite Hps. reflexivity.
  - simpl. rewrite Hmap, Hs. reflexivity.
  - unfold points_valid, MultiPoint.geoms. cbn [MultiPoint._geoms].
    rewrite <- (forallb_on_map Point.coords is_coordinate ps).
    rewrite Hmap. exact Hc.
Qed.

Lemma MultiPoint_of_line_witness :
  exists l gi m,
    LineString.__init__ (PyList [PyList [PyInt 0; PyInt 0];
                                 PyList [PyInt 1; PyInt 2]]) = Ok l /\
    LineString.__geo_interface__ l = Ok (Some gi) /\
    MultiPoint.__init__ (PyGeo (fst gi) (snd gi)) = Ok m /\
    List.length (MultiPoint.geoms m) = 2%nat.
Proof.
  eexists. eexists. eexists.
  split; [vm_compute; reflexivity |].
  split; [vm_compute; reflexivity |].
  split; [vm_compute; reflexivity |].
  match goal with
  | |- List.length (MultiPoint.geoms ?m) = _ =>
      destruct (MultiPoint_of_line
                  {| LineString._coordinates :=
                      PyList [PyTuple [PyFloat (float_lit "0.0");
                                       PyFloat (float_lit "0.0")];
                              PyTuple [PyFloat (float_lit "1.0");
                                       PyFloat (float_lit "2.0")]] |}
                  ("LineString",
                   PyTuple [PyTuple [PyFloat (float_lit "0.0");
                                     PyFloat (float_lit "0.0")];
                            PyTuple [PyFloat (float_lit "1.0");
                                     PyFloat (float_lit "2.0")]]))
        as [m' [Hm' [Hmap _]]]
  end.
  - vm_compute. reflexivity.
  - vm_compute. reflexivity.
  - vm_compute. reflexivity.
Defined.

(** X21: the setter of [LineString.coords] accepts a value exactly when
    it is a list or tuple that [LineString] accepts, and then stores what
    [LineString] would build of it: a list of tuples of one length. *)
Theorem LineString_set_coords_spec
        (self self' : LineString.t) (coordinates : pyval) :
  (LineString.set_coords self coordinates = (self', None) <->
   is_list_or_tuple coordinates = true /\
   LineString.__init__ coordinates = Ok self') /\
  (LineString.set_coords self coordinates = (self', None) ->
   exists l, LineString._coordinates self' = PyList l /\
             same_dimension l = true /\
             forallb (fun c => match c with PyTuple _ => true | _ => false end)
                     l = true).
Proof.
  assert (Hfwd : LineString.set_coords self coordinates = (self', None) ->
                 is_list_or_tuple coordinates = true /\
                 LineString.__init__ coordinates = Ok self')
    by apply set_coords_raw.
  split; [split; [exact Hfwd |] |].
  - intros [Hraw Hinit]. unfold LineString.set_coords.
    destruct coordinates; try discriminate Hraw;
      unfold LineString.__init__ in Hinit;
      cbn [has_geo_interface] in Hinit;
      destruct (LineString.init_loop items [] None); simpl in Hinit;
      inversion Hinit; reflexivity.
  - intros H. destruct (Hfwd H) as [Hraw Hinit].
    assert (Hcs : exists cs, LineString.__init__ (PyList cs) = Ok self' \/
                             LineString.__init__ (PyTuple cs) = Ok self').
    { destruct coordinates; try discriminate Hraw; exists items; auto. }
    destruct Hcs as [cs Hcs].
    destruct (LineString_raw_stored cs self' Hcs) as [ps [_ [Hc Hd]]].
    exists (map Point.coords ps).
    split; [exact Hc | split; [exact Hd |]].
    rewrite forallb_on_map. apply forallb_forall. intros p _. reflexivity.
Qed.

Lemma LineString_set_coords_spec_witness :
  exists l,
    LineString._coordinates
      (fst (LineString.set_coords
              {| LineString._coordinates := PyList [] |}
              (PyTuple [PyList [PyInt 0; PyInt 0]; PyList [PyInt 1; PyInt 2]])))
    = PyList l /\
    same_dimension l = true.
Proof.
  destruct (LineString_set_coords_spec
              {| LineString._coordinates := PyList [] |}
              (fst (LineString.set_coords
                      {| LineString._coordinates := PyList [] |}
                      (PyTuple [PyList [PyInt 0; PyInt 0];
                                PyList [PyInt 1; PyInt 2]])))
              (PyTuple [PyList [PyInt 0; PyInt 0]; PyList [PyInt 1; PyInt 2]]))
    as [_ H].
  destruct H as [l [Hl [Hd _]]].
  - vm_compute. reflexivity.
  - exists l. split; assumption.
Defined.
